(** * TransfermarktBase (app/services/base.py): fetch and extraction core

    A shallow embedding of the class [TransfermarktBase] and of the Python
    built-ins its methods rely on (sequence subscripting and slicing,
    [str.split], [str.join], [int]), followed by the properties of the
    request and of the extraction operations.

    Conventions.
    - A Python [str] is a [string]; a character is the code point of an
      [ascii] (the Latin-1 range).
    - A Python [int] is a [Z]; an optional argument is an [option].
    - A method is a computation in the monad [M]: it receives the store
      (the instance and the log of outside effects) and either returns a
      value or raises, handing back the store in both cases.
    - What the module imports ([trim], the [Pagination] paths, the lxml
      tree, [random.uniform], [requests.get]) is a parameter, gathered in
      the class [Imports].  Evaluating a path expression gives a
      node-set, a string, a number or a boolean, or fails on a path
      that is not well formed; it does not change the tree.  The nodes
      of a node-set are taken by their text, as the text and attribute
      nodes that [trim] is written for.
    - A [Store] is any state of the instance: its page may still be
      [None].  A [Heap] is a store whose page is loaded and answers
      every path by a node-set.
    - Of the three parsing methods, [request_url_bsoup] is embedded
      over the BeautifulSoup constructor (class [Soup]).
      [convert_bsoup_to_page] and [request_url_page] hand the document
      to lxml, whose parse of an empty document gives no tree; they are
      left out. *)

From Stdlib Require Import List ZArith String Ascii Bool QArith Lia.
Import ListNotations.

#[local] Open Scope string_scope.
#[local] Open Scope Z_scope.

(** ** Python built-ins *)

Module Py.

(** Truth value of a [str]: the empty string is false. *)
Definition truthy (s : string) : bool :=
  match s with
  | EmptyString => false
  | String _ _ => true
  end.

(** Truth value of an [Optional[str]]: [None] and [""] are false. *)
Definition truthy_opt (o : option string) : bool :=
  match o with
  | None => false
  | Some s => truthy s
  end.

Definition len {A : Type} (l : list A) : Z := Z.of_nat (List.length l).

(** [l[i]]: a negative index counts from the end; [None] stands for
    the IndexError of an index outside [-len, len). *)
Definition subscript {A : Type} (l : list A) (i : Z) : option A :=
  let j := if i <? 0 then i + len l else i in
  if (0 <=? j) && (j <? len l) then nth_error l (Z.to_nat j) else None.

(** A slice bound is clamped into [0, len]. *)
Definition clamp (n i : Z) : Z :=
  if i <? 0 then Z.max (i + n) 0 else Z.min i n.

(** [l[lo:hi]], either bound possibly omitted; never raises. *)
Definition slice {A : Type} (l : list A) (lo hi : option Z) : list A :=
  let n := len l in
  let a := match lo with None => 0 | Some i => clamp n i end in
  let b := match hi with None => n | Some j => clamp n j end in
  firstn (Z.to_nat (b - a)) (skipn (Z.to_nat a) l).

(** The characters of a [str], each as a one-character [str]: what
    iterating over a [str] yields. *)
Definition chars (s : string) : list string :=
  map (fun c => String c EmptyString) (list_ascii_of_string s).

Definition str_subscript (s : string) (i : Z) : option string :=
  subscript (chars s) i.

Definition str_slice (s : string) (lo hi : option Z) : string :=
  string_of_list_ascii (slice (list_ascii_of_string s) lo hi).

(** [sep.join(l)] *)
Definition join (sep : string) (l : list string) : string :=
  String.concat sep l.

(** [s.split(c)] for a one-character separator [c]: the fields between
    the occurrences of [c], empty fields included. *)
Fixpoint split (c : ascii) (s : string) : list string :=
  match s with
  | EmptyString => [EmptyString]
  | String a s' =>
      if Ascii.eqb a c then EmptyString :: split c s'
      else match split c s' with
           | [] => [String a EmptyString]
           | w :: ws => String a w :: ws
           end
  end.

(** White space as [str.isspace] sees it, in the Latin-1 range:
    U+0009..U+000D, U+001C..U+0020, U+0085 and U+00A0. *)
Definition isspace (c : ascii) : bool :=
  let n := N_of_ascii c in
  (((9 <=? n) && (n <=? 13)) || ((28 <=? n) && (n <=? 32))
   || (n =? 133) || (n =? 160))%N.

(** White space as [int] sees it around a number: the same characters
    without the separators U+001C..U+001F. *)
Definition int_space (c : ascii) : bool :=
  let n := N_of_ascii c in
  (((9 <=? n) && (n <=? 13)) || (n =? 32) || (n =? 133) || (n =? 160))%N.

(** Dropping the leading characters that satisfy [space]. *)
Fixpoint lstrip (space : ascii -> bool) (s : string) : string :=
  match s with
  | EmptyString => EmptyString
  | String c s' => if space c then lstrip space s' else s
  end.

Definition reverse (s : string) : string :=
  string_of_list_ascii (rev (list_ascii_of_string s)).

(** Dropping them at both ends. *)
Definition strip (space : ascii -> bool) (s : string) : string :=
  reverse (lstrip space (reverse (lstrip space s))).

Definition isdigit (c : ascii) : bool :=
  let n := N_of_ascii c in ((48 <=? n) && (n <=? 57))%N.

Definition digit_value (c : ascii) : Z := Z.of_N (N_of_ascii c) - 48.

(** The digits of a decimal literal: single underscores may separate
    digits; [after_digit] says that the previous character was one. *)
Fixpoint digits (s : string) (acc : Z) (after_digit : bool) : option Z :=
  match s with
  | EmptyString => if after_digit then Some acc else None
  | String c s' =>
      if isdigit c then digits s' (10 * acc + digit_value c) true
      else if Ascii.eqb c "_"%char && after_digit then digits s' acc false
      else None
  end.

(** [int(s)] in base 10: surrounding white space, an optional sign,
    then the digits; [None] stands for the ValueError of any other
    text.  (The interpreter's configurable cap on the number of digits
    is left out.) *)
Definition int (s : string) : option Z :=
  match strip int_space s with
  | String "-" d => option_map Z.opp (digits d 0 false)
  | String "+" d => digits d 0 false
  | d => digits d 0 false
  end.

End Py.

(** ** Exceptions, store and the method monad *)

(** The exceptions the methods can raise.  [HTTPException] is FastAPI's,
    with its two fields; [XPathEvalError] is lxml's, for a path that is
    not well formed; [AttributeError] and [TypeError] are the
    interpreter's, for [None.xpath] and for a number or a boolean used
    as a sequence. *)
Inductive exn : Type :=
| IndexError
| ValueError
| HTTPException (status_code : Z) (detail : string)
| AttributeError
| TypeError
| XPathEvalError.

Inductive outcome (A : Type) : Type :=
| Return (a : A)
| Raise (e : exn).
Arguments Return {A} a.
Arguments Raise {A} e.

(** [requests.Response], the fields that are read. *)
Record Response : Type := mkResponse {
  status_code : Z;
  reason : string;
  content : string
}.

(** What [requests.get] can raise inside [make_request]: the
    [TooManyRedirects] of requests, the built-in [ConnectionError], or
    any other [Exception], kept with its message. *)
Inductive transport_error : Type :=
| TooManyRedirects
| ConnectionError
| OtherException (message : string).

Inductive reply : Type :=
| Raises (e : transport_error)
| Responds (r : Response).

(** Effects on the outside world, in the order they happen. *)
Inductive event : Type :=
| Sleep (seconds : Q)
| Get (url : string) (headers : list (string * string)) (timeout : Z).

(** What [tree.xpath(path)] gives: the list of the matched nodes, each
    by its text; the value of a path expression that computes a
    string, a number or a boolean; or the XPathEvalError of a path that
    is not well formed.  Of a number the methods only test whether it
    is zero. *)
Inductive xpath_result : Type :=
| XNodes (texts : list string)
| XString (s : string)
| XNumber (nonzero : bool)
| XBoolean (b : bool)
| XInvalid.

(** What the module imports and does not define: the lxml tree with its
    [xpath] method, [app.utils.utils.trim], the two [Pagination] paths of
    [app.utils.xpath], the contents of the [response] dict, and the two
    calls into the outside world, each answered from the events so far. *)
Class Imports : Type := {
  ElementTree : Type;
  dict : Type;
  xpath_eval : ElementTree -> string -> xpath_result;
  trim : string -> string;
  PAGE_NUMBER_LAST : string;
  PAGE_NUMBER_ACTIVE : string;
  random_uniform : list event -> Q -> Q -> Q;
  requests_get : list event -> string -> list (string * string) -> Z -> reply
}.

(** The value bound to the local variables [elements] and [element]: a
    list of strings; a single string (a string-valued path, or the
    result of [element[iloc]]); a number or a boolean. *)
Inductive value : Type :=
| VList (l : list string)
| VStr (s : string)
| VNumber (nonzero : bool)
| VBoolean (b : bool).

(** Truth value of [element]: the empty list, the empty string, zero and
    [False] are false. *)
Definition truthy_value (v : value) : bool :=
  match v with
  | VList [] => false
  | VList (_ :: _) => true
  | VStr s => Py.truthy s
  | VNumber nonzero => nonzero
  | VBoolean b => b
  end.

Definition is_nodes (r : xpath_result) : bool :=
  match r with
  | XNodes _ => true
  | _ => false
  end.

Section Methods.

Context {I : Imports}.

(** The dataclass: [URL], [page] and [response].  [page] is [None] until
    a tree is assigned to it. *)
Record TransfermarktBase : Type := mkTransfermarktBase {
  URL : string;
  page : option ElementTree;
  response : dict
}.

Record Store : Type := mkStore {
  self : TransfermarktBase;
  log : list event
}.

Definition M (A : Type) : Type := Store -> outcome A * Store.

Definition ret {A : Type} (a : A) : M A := fun h => (Return a, h).

Definition raise {A : Type} (e : exn) : M A := fun h => (Raise e, h).

Definition bind {A B : Type} (m : M A) (k : A -> M B) : M B :=
  fun h =>
    match m h with
    | (Return a, h') => k a h'
    | (Raise e, h') => (Raise e, h')
    end.

(** [try: m except <caught>: handler] *)
Definition try_except {A : Type} (m : M A) (caught : exn -> bool) (handler : M A) : M A :=
  fun h =>
    match m h with
    | (Return a, h') => (Return a, h')
    | (Raise e, h') => if caught e then handler h' else (Raise e, h')
    end.

Definition get_self : M TransfermarktBase := fun h => (Return (self h), h).

Definition get_log : M (list event) := fun h => (Return (log h), h).

Definition emit (e : event) : M unit :=
  fun h => (Return tt, mkStore (self h) (log h ++ [e])%list).

(** A subscript that raises IndexError when out of range. *)
Definition index_or_raise {A : Type} (o : option A) : M A :=
  match o with
  | Some a => ret a
  | None => raise IndexError
  end.

Definition is_IndexError (e : exn) : bool :=
  match e with
  | IndexError => true
  | _ => false
  end.

(** Iterating over [element]; a number or a boolean is not iterable. *)
Definition items (v : value) : M (list string) :=
  match v with
  | VList l => ret l
  | VStr s => ret (Py.chars s)
  | VNumber _ | VBoolean _ => raise TypeError
  end.

(** [element[i]]; a number or a boolean is not subscriptable. *)
Definition subscript (v : value) (i : Z) : M string :=
  match v with
  | VList l => index_or_raise (Py.subscript l i)
  | VStr s => index_or_raise (Py.str_subscript s i)
  | VNumber _ | VBoolean _ => raise TypeError
  end.

(** [element[lo:hi]] *)
Definition slice (v : value) (lo hi : option Z) : M value :=
  match v with
  | VList l => ret (VList (Py.slice l lo hi))
  | VStr s => ret (VStr (Py.str_slice s lo hi))
  | VNumber _ | VBoolean _ => raise TypeError
  end.

(** A store whose page is loaded and answers every path by a node-set. *)
Definition loaded (s : Store) : Prop :=
  match page (self s) with
  | Some tree => forall xpath, is_nodes (xpath_eval tree xpath) = true
  | None => False
  end.

Record Heap : Type := mkHeap {
  store :> Store;
  heap_loaded : loaded store
}.

End Methods.

Declare Scope method_scope.
Delimit Scope method_scope with method.
Notation "x <- m ;; k" := (bind m (fun x => k))
  (at level 61, m at next level, right associativity) : method_scope.
Notation "m ;; k" := (bind m (fun _ => k))
  (at level 61, right associativity) : method_scope.
#[local] Open Scope method_scope.

(** ** The methods of [TransfermarktBase] *)

Section Class.

Context {I : Imports}.

Definition headers : list (string * string) :=
  [ ("User-Agent",
     "Mozilla/5.0 (Macintosh; Intel Mac OS X 10_15_7) "
     ++ "AppleWebKit/605.1.15 (KHTML, like Gecko) "
     ++ "Version/15.5 Safari/605.1.15");
    ("Accept-Language", "en-US,en;q=0.9");
    ("Referer", "https://www.google.com/");
    ("Accept", "text/html,application/xhtml+xml,application/xml;q=0.9,*/*;q=0.8");
    ("Connection", "keep-alive") ].

(** [time.sleep(random.uniform(a, b))]: one draw, then the wait. *)
Definition sleep_uniform (a b : Q) : M unit :=
  past <- get_log ;;
  emit (Sleep (random_uniform past a b)).

(** [requests.get(url=url, headers=headers, timeout=timeout)]: the
    request goes out, then the answer is known. *)
Definition get (url : string) (hs : list (string * string)) (timeout : Z) : M reply :=
  past <- get_log ;;
  emit (Get url hs timeout) ;;
  ret (requests_get past url hs timeout).

(** [make_request(self, url=None)].  The [try] block is the delay and the
    request; its three handlers are the three [Raises] cases. *)
Definition make_request (url : option string) : M Response :=
  this <- get_self ;;
  let url := match url with
             | Some u => if negb (Py.truthy u) then URL this else u
             | None => URL this
             end in
  sleep_uniform (3 # 2) 3 ;;
  answer <- get url headers 15 ;;
  match answer with
  | Raises TooManyRedirects =>
      raise (HTTPException 404 ("Not found for url: " ++ url))
  | Raises ConnectionError =>
      raise (HTTPException 500 ("Connection error for url: " ++ url))
  | Raises (OtherException e) =>
      raise (HTTPException 500 ("Error for url: " ++ url ++ ". " ++ e))
  | Responds response =>
      if (400 <=? status_code response) && (status_code response <? 500) then
        raise (HTTPException (status_code response)
                 ("Client Error. " ++ reason response ++ " for url: " ++ url))
      else if (500 <=? status_code response) && (status_code response <? 600) then
        raise (HTTPException (status_code response)
                 ("Server Error. " ++ reason response ++ " for url: " ++ url))
      else ret response
  end.

(** [self.page.xpath(xpath)] *)
Definition page_xpath (xpath : string) : M value :=
  this <- get_self ;;
  match page this with
  | None => raise AttributeError
  | Some tree =>
      match xpath_eval tree xpath with
      | XNodes texts => ret (VList texts)
      | XString s => ret (VStr s)
      | XNumber nonzero => ret (VNumber nonzero)
      | XBoolean b => ret (VBoolean b)
      | XInvalid => raise XPathEvalError
      end
  end.

(** [[trim(e) for e in elements if trim(e)]] *)
Definition trimmed_nonempty (elements : list string) : list string :=
  map trim (filter (fun e => Py.truthy (trim e)) elements).

(** [get_list_by_xpath(self, xpath, remove_empty=True)]; [remove_empty]
    is an [Optional[bool]], and [None] counts as false. *)
Definition get_list_by_xpath (xpath : string) (remove_empty : option bool) : M (list string) :=
  elements <- page_xpath xpath ;;
  elements_valid <-
    match remove_empty with
    | Some true => es <- items elements ;; ret (trimmed_nonempty es)
    | _ => es <- items elements ;; ret (map trim es)
    end ;;
  ret (match elements_valid with
       | [] => []
       | _ :: _ => elements_valid
       end).

(** Lines 128 to 138 of [get_text_by_xpath]: the four [if] statements on
    [iloc], [iloc_from] and [iloc_to], one after the other.  The result
    is the value of [element] when the [join_str] test is reached. *)
Definition working_sequence (element : value) (iloc iloc_from iloc_to : option Z) : M value :=
  element <- match iloc with
             | Some i => s <- subscript element i ;; ret (VStr s)
             | None => ret element
             end ;;
  element <- match iloc_from, iloc_to with
             | Some f, Some t => slice element (Some f) (Some t)
             | _, _ => ret element
             end ;;
  element <- match iloc_to with
             | Some t => slice element None (Some t)
             | None => ret element
             end ;;
  element <- match iloc_from with
             | Some f => slice element (Some f) None
             | None => ret element
             end ;;
  ret element.

(** [get_text_by_xpath(self, xpath, pos=0, iloc=None, iloc_from=None,
    iloc_to=None, join_str=None)] *)
Definition get_text_by_xpath (xpath : string) (pos : Z)
    (iloc iloc_from iloc_to : option Z) (join_str : option string) : M (option string) :=
  element <- page_xpath xpath ;;
  if negb (truthy_value element) then ret None
  else
    let element := match element with
                   | VList l => VList (trimmed_nonempty l)
                   | _ => element
                   end in
    element <- working_sequence element iloc iloc_from iloc_to ;;
    match join_str with
    | Some sep => es <- items element ;; ret (Some (Py.join sep (map trim es)))
    | None =>
        try_except
          (e <- subscript element pos ;; ret (Some (trim e)))
          is_IndexError
          (ret None)
    end.

(** [raise_exception_if_not_found(self, xpath)] *)
Definition raise_exception_if_not_found (xpath : string) : M unit :=
  found <- get_text_by_xpath xpath 0 None None None None ;;
  if negb (Py.truthy_opt found) then
    this <- get_self ;;
    raise (HTTPException 404 ("Invalid request (url: " ++ URL this ++ ")"))
  else ret tt.

(** [int(url_page.split("=")[-1].split("/")[-1])] *)
Definition page_number_of (url_page : string) : M Z :=
  tail <- index_or_raise (Py.subscript (Py.split "=" url_page) (-1)) ;;
  token <- index_or_raise (Py.subscript (Py.split "/" tail) (-1)) ;;
  match Py.int token with
  | Some n => ret n
  | None => raise ValueError
  end.

(** The [for] loop of [get_last_page_number] over the paths still to try. *)
Fixpoint last_page_loop (xpath_base : string) (paths : list string) : M Z :=
  match paths with
  | [] => ret 1
  | xpath :: paths' =>
      url_page <- get_text_by_xpath (xpath_base ++ xpath) 0 None None None None ;;
      match url_page with
      | Some text => if Py.truthy text then page_number_of text
                     else last_page_loop xpath_base paths'
      | None => last_page_loop xpath_base paths'
      end
  end.

(** [get_last_page_number(self, xpath_base="")] *)
Definition get_last_page_number (xpath_base : string) : M Z :=
  last_page_loop xpath_base [PAGE_NUMBER_LAST; PAGE_NUMBER_ACTIVE].

End Class.

(** ** Notions used to state the properties *)

Section Notions.

Context {I : Imports}.

(** The outcome of a method call, without the store. *)
Definition result {A : Type} (m : M A) (h : Store) : outcome A := fst (m h).

(** What [self.page.xpath(xpath)] evaluates to on the loaded page of the
    instance. *)
Definition evaluates (h : Store) (xpath : string) (r : xpath_result) : Prop :=
  exists tree, page (self h) = Some tree /\ xpath_eval tree xpath = r.

(** The matches of a path on the page of the instance: the nodes of the
    node-set it evaluates to, and none when the page is not loaded or
    the path does not evaluate to a node-set. *)
Definition matches (h : Store) (xpath : string) : list string :=
  match page (self h) with
  | Some tree =>
      match xpath_eval tree xpath with
      | XNodes texts => texts
      | _ => []
      end
  | None => []
  end.

(** The matches, trimmed, without those that trim to the empty string. *)
Definition kept (h : Store) (xpath : string) : list string :=
  filter (fun s => negb (s =? "")%string) (map trim (matches h xpath)).

(** An index outside [-len, len). *)
Definition out_of_range {A : Type} (l : list A) (i : Z) : Prop :=
  i < - Py.len l \/ Py.len l <= i.

(** A method that hands back the store it received, whatever it answers. *)
Definition heap_unchanged {A : Type} (m : M A) : Prop :=
  forall h, snd (m h) = h.

(** The three fields of the instance are the same after the call. *)
Definition fields_unchanged {A : Type} (m : M A) : Prop :=
  forall h,
    URL (self (snd (m h))) = URL (self h)
    /\ page (self (snd (m h))) = page (self h)
    /\ response (self (snd (m h))) = response (self h).

(** The text a path yields with every option left at its default, or
    [None] when it yields none (or when the call raises, which it does
    not on a heap). *)
Definition text_at (h : Store) (xpath : string) : option string :=
  match result (get_text_by_xpath xpath 0 None None None None) h with
  | Return found => found
  | Raise _ => None
  end.

(** The address [make_request] uses: the argument, or the bound address
    when the argument is missing or empty. *)
Definition address (h : Store) (url : option string) : string :=
  match url with
  | Some (String c u) => String c u
  | _ => URL (self h)
  end.

(** The answer the outside world gives to the request of a
    [make_request] call started in store [h]. *)
Definition answer (h : Store) (url : option string) : reply :=
  requests_get (log h ++ [Sleep (random_uniform (log h) (3 # 2) 3)])%list
               (address h url) headers 15.


End Notions.

(** A list or a string, the values that can be subscripted, sliced and
    iterated over. *)
Definition is_sequence (v : value) : bool :=
  match v with
  | VList _ | VStr _ => true
  | VNumber _ | VBoolean _ => false
  end.

(** The elements of a sequence: those of a list, the characters of a
    string. *)
Definition seq_items (v : value) : list string :=
  match v with
  | VList l => l
  | VStr s => Py.chars s
  | VNumber _ | VBoolean _ => []
  end.

(** The element at an index of a sequence, if there is one. *)
Definition seq_subscript (v : value) (i : Z) : option string :=
  Py.subscript (seq_items v) i.

(** [c] occurs in [s]. *)
Fixpoint occurs (c : ascii) (s : string) : bool :=
  match s with
  | EmptyString => false
  | String a s' => Ascii.eqb a c || occurs c s'
  end.

(** The text after the final [c] of [s]; all of [s] when it has no [c]. *)
Fixpoint after_last (c : ascii) (s : string) : string :=
  match s with
  | EmptyString => EmptyString
  | String a s' =>
      if occurs c s' then after_last c s'
      else if Ascii.eqb a c then s' else s
  end.

(** The page indicator of a pagination text, in the words of the
    specification: the text after the final [=], then the portion after
    the final [/], read as an integer. *)
Definition page_indicator (text : string) : option Z :=
  Py.int (after_last "/" (after_last "=" text)).

(** ** A sample environment *)

(** Modelled from the spec: [app/utils/utils.py] ([trim]) is not among the
    sources.  The specification describes trimming as the normalization of
    surrounding and internal white space into a compact form: the words
    of the text, separated by single spaces.  [starts_word] says that
    the text begins inside a word. *)
Definition starts_word (s : string) : bool :=
  match s with
  | EmptyString => false
  | String c _ => negb (Py.isspace c)
  end.

(** Modelled from the spec: the maximal runs of characters of [s] that
    are not white space (see [starts_word]). *)
Fixpoint words (s : string) : list string :=
  match s with
  | EmptyString => []
  | String c s' =>
      if Py.isspace c then words s'
      else if starts_word s' then
        match words s' with
        | [] => [String c EmptyString]
        | w :: ws => String c w :: ws
        end
      else String c EmptyString :: words s'
  end.

(** Modelled from the spec: [trim] (see [starts_word]). *)
Definition trim_spaces (s : string) : string := Py.join " " (words s).

(** No character of [s] is white space. *)
Fixpoint no_space (s : string) : bool :=
  match s with
  | EmptyString => true
  | String c s' => negb (Py.isspace c) && no_space s'
  end.

(** A word: at least one character, none of them white space. *)
Definition is_word (s : string) : bool := Py.truthy s && no_space s.

(** A page given by the matches of each of its paths; a path that is not
    listed has no match. *)
Fixpoint lookup (t : list (string * list string)) (xpath : string) : list string :=
  match t with
  | [] => []
  | (p, ms) :: t' => if (p =? xpath)%string then ms else lookup t' xpath
  end.

(** A sample page: the node-sets of its paths (a path that is not
    listed has no match) and, for the paths listed in [other_values],
    what they evaluate to instead. *)
Record sample_page : Type := mkSamplePage {
  node_sets : list (string * list string);
  other_values : list (string * xpath_result)
}.

Fixpoint lookup_value (t : list (string * xpath_result)) (xpath : string) : option xpath_result :=
  match t with
  | [] => None
  | (p, r) :: t' => if (p =? xpath)%string then Some r else lookup_value t' xpath
  end.

Definition sample_xpath (t : sample_page) (xpath : string) : xpath_result :=
  match lookup_value (other_values t) xpath with
  | Some r => r
  | None => XNodes (lookup (node_sets t) xpath)
  end.

(** An environment for concrete runs: pages as above, [trim_spaces], two
    sample pagination paths, a draw that answers the lower bound, and a
    server that answers by the last segment of the address. *)
Definition sample_server (url : string) : reply :=
  match after_last "/" url with
  | "redirects" => Raises TooManyRedirects
  | "refused" => Raises ConnectionError
  | "404" => Responds (mkResponse 404 "Not Found" "")
  | "503" => Responds (mkResponse 503 "Service Unavailable" "")
  | _ => Responds (mkResponse 200 "OK" "<html></html>")
  end.

Definition sample : Imports := {|
  ElementTree := sample_page;
  dict := list (string * string);
  xpath_eval := sample_xpath;
  trim := trim_spaces;
  PAGE_NUMBER_LAST := "//li[@class='last-page']//@href";
  PAGE_NUMBER_ACTIVE := "//li[@class='active-page']//@href";
  random_uniform := fun _ a _ => a;
  requests_get := fun _ url _ _ => sample_server url
|}.

(** A store of the sample environment: an instance bound to [url] with
    the given page, if any, an empty response dict and no effect so
    far. *)
Definition sample_store (url : string) (p : option sample_page) : @Store sample :=
  @mkStore sample (@mkTransfermarktBase sample url p []) [].

(** A heap of the sample environment: an instance bound to [url] whose
    page has the node-sets [t], with an empty response dict and no
    effect so far. *)
Definition sample_heap (url : string) (t : list (string * list string)) : @Heap sample :=
  @mkHeap sample (sample_store url (Some (mkSamplePage t [])))
    (fun xpath => eq_refl).

(** ** The lenient parse *)

(** BeautifulSoup, as [request_url_bsoup] uses it: the type of its
    documents and the constructor
    [BeautifulSoup(markup=..., features="html.parser")], which accepts
    any markup. *)
Class Soup : Type := {
  BeautifulSoup : Type;
  html_parser : string -> BeautifulSoup
}.

(** [request_url_bsoup(self)] *)
Definition request_url_bsoup {I : Imports} {B : Soup} : M BeautifulSoup :=
  response <- make_request None ;;
  ret (html_parser (content response)).

(** A status code that [make_request] reports as a failure. *)
Definition error_status (c : Z) : Prop := 400 <= c < 600.

(** The [Get] events of a log. *)
Definition requests_of (l : list event) : list event :=
  filter (fun e => match e with Get _ _ _ => true | Sleep _ => false end) l.

(** A method whose result depends on the store through the instance
    only, not through the log of effects. *)
Definition reads_self {I : Imports} {A : Type} (m : M A) : Prop :=
  forall h h', self h' = self h -> result m h' = result m h.

(** The four extraction methods answer in [h'] as they do in [h]. *)
Definition same_extraction {I : Imports} (h h' : Store) : Prop :=
  (forall xpath remove_empty,
     result (get_list_by_xpath xpath remove_empty) h'
     = result (get_list_by_xpath xpath remove_empty) h)
  /\ (forall xpath pos iloc iloc_from iloc_to join_str,
        result (get_text_by_xpath xpath pos iloc iloc_from iloc_to join_str) h'
        = result (get_text_by_xpath xpath pos iloc iloc_from iloc_to join_str) h)
  /\ (forall xpath_base,
        result (get_last_page_number xpath_base) h'
        = result (get_last_page_number xpath_base) h)
  /\ (forall xpath,
        result (raise_exception_if_not_found xpath) h'
        = result (raise_exception_if_not_found xpath) h).

(** ** Facts about the built-ins *)

Lemma truthy_eqb (s : string) : Py.truthy s = negb (s =? "")%string.
Proof. destruct s; reflexivity. Qed.

Lemma len_nonneg {A : Type} (l : list A) : 0 <= Py.len l.
Proof. unfold Py.len. lia. Qed.

Lemma subscript_out_of_range {A : Type} (l : list A) (i : Z) :
  out_of_range l i -> Py.subscript l i = None.
Proof.
  intros [H | H]; unfold Py.subscript.
  - pose proof (len_nonneg l).
    destruct (Z.ltb_spec i 0); [| lia].
    destruct (Z.leb_spec 0 (i + Py.len l)); [lia | reflexivity].
  - pose proof (len_nonneg l).
    destruct (Z.ltb_spec i 0); [lia |].
    destruct (Z.ltb_spec i (Py.len l)); [lia |].
    now rewrite andb_false_r.
Qed.

Lemma subscript_in_range {A : Type} (l : list A) (i : Z) :
  ~ out_of_range l i -> exists a, Py.subscript l i = Some a.
Proof.
  intros H. unfold out_of_range in H. unfold Py.subscript.
  set (j := if i <? 0 then i + Py.len l else i).
  assert (Hj : 0 <= j < Py.len l).
  { subst j. destruct (Z.ltb_spec i 0); lia. }
  destruct (Z.leb_spec 0 j); [| lia].
  destruct (Z.ltb_spec j (Py.len l)); [| lia].
  simpl. destruct (nth_error l (Z.to_nat j)) eqn:E; [eauto |].
  apply nth_error_None in E. unfold Py.len in Hj. lia.
Qed.

Lemma subscript_nil {A : Type} (i : Z) : Py.subscript (@nil A) i = None.
Proof. apply subscript_out_of_range. unfold out_of_range, Py.len. simpl. lia. Qed.

Lemma nth_error_last {A : Type} (l : list A) (d : A) :
  l <> [] -> nth_error l (List.length l - 1) = Some (List.last l d).
Proof.
  induction l as [| a [| b l'] IH]; [congruence | reflexivity |].
  intros _.
  change (List.last (a :: b :: l') d) with (List.last (b :: l') d).
  rewrite <- IH by congruence.
  replace (List.length (a :: b :: l') - 1)%nat with (S (List.length (b :: l') - 1))
    by (simpl List.length; lia).
  reflexivity.
Qed.

(** [l[-1]] is the last element of a list that has one. *)
Lemma subscript_minus_one {A : Type} (l : list A) (d : A) :
  l <> [] -> Py.subscript l (-1) = Some (List.last l d).
Proof.
  intros Hl. unfold Py.subscript.
  assert (Hlen : 1 <= Py.len l).
  { destruct l; [congruence | unfold Py.len; simpl List.length; lia]. }
  change (-1 <? 0) with true. cbv iota.
  destruct (Z.leb_spec 0 (-1 + Py.len l)); [| lia].
  destruct (Z.ltb_spec (-1 + Py.len l) (Py.len l)); [| lia].
  cbv [andb]. unfold Py.len.
  replace (Z.to_nat (-1 + Z.of_nat (List.length l))) with (List.length l - 1)%nat by lia.
  now apply nth_error_last.
Qed.

Lemma split_not_nil (c : ascii) (s : string) : Py.split c s <> [].
Proof.
  destruct s as [| a s']; simpl; [congruence |].
  destruct (Ascii.eqb a c); [congruence |].
  destruct (Py.split c s'); congruence.
Qed.

Lemma split_without (c : ascii) (s : string) :
  occurs c s = false -> Py.split c s = [s].
Proof.
  induction s as [| a s' IH]; simpl; intros H; [reflexivity |].
  apply orb_false_iff in H as [Ha Hs]. rewrite Ha, (IH Hs). reflexivity.
Qed.

Lemma split_with (c : ascii) (s : string) :
  occurs c s = true -> exists w w' ws, Py.split c s = w :: w' :: ws.
Proof.
  induction s as [| a s' IH]; simpl; intros H; [discriminate |].
  destruct (Ascii.eqb a c) eqn:Ha.
  - destruct (Py.split c s') as [| w ws] eqn:E.
    + now apply split_not_nil in E.
    + eauto.
  - simpl in H. destruct (IH H) as (w & w' & ws & E). rewrite E. eauto.
Qed.

Lemma after_last_without (c : ascii) (s : string) :
  occurs c s = false -> after_last c s = s.
Proof.
  destruct s as [| a s']; simpl; intros H; [reflexivity |].
  apply orb_false_iff in H as [Ha Hs]. now rewrite Hs, Ha.
Qed.

(** The last field of [s.split(c)] is the text after the final [c]. *)
Lemma last_split (c : ascii) (s : string) :
  List.last (Py.split c s) EmptyString = after_last c s.
Proof.
  induction s as [| a s' IH]; [reflexivity |].
  simpl Py.split. simpl after_last.
  destruct (occurs c s') eqn:Hocc.
  - destruct (split_with c s' Hocc) as (w & w' & ws & E).
    rewrite E in *. destruct (Ascii.eqb a c); exact IH.
  - rewrite (split_without c s' Hocc). destruct (Ascii.eqb a c); reflexivity.
Qed.

Lemma subscript_split_last (c : ascii) (s : string) :
  Py.subscript (Py.split c s) (-1) = Some (after_last c s).
Proof.
  rewrite (subscript_minus_one _ EmptyString (split_not_nil c s)).
  now rewrite last_split.
Qed.

(** ** Facts about the sample [trim] *)

Lemma words_are_words (s : string) : Forall (fun w => is_word w = true) (words s).
Proof.
  induction s as [| c s' IH]; simpl; [constructor |].
  destruct (Py.isspace c) eqn:Hc; [exact IH |].
  destruct (starts_word s').
  - destruct (words s') as [| w ws]; constructor.
    + unfold is_word. simpl. now rewrite Hc.
    + constructor.
    + inversion IH as [| ? ? Hw _]; subst. unfold is_word in *. simpl.
      rewrite Hc. apply andb_true_iff in Hw as [_ Hw]. now rewrite Hw.
    + now inversion IH.
  - constructor; [| exact IH]. unfold is_word. simpl. now rewrite Hc.
Qed.

Lemma words_word_space (w rest : string) :
  is_word w = true -> words (w ++ String " " rest) = w :: words rest.
Proof.
  induction w as [| c w' IH]; [discriminate |].
  unfold is_word. simpl. intros H.
  apply andb_true_iff in H as [Hc Hw']. apply negb_true_iff in Hc. rewrite Hc.
  destruct w' as [| c' w''].
  - reflexivity.
  - assert (Hc' : Py.isspace c' = false).
    { simpl in Hw'. apply andb_true_iff in Hw' as [Hc' _]. now apply negb_true_iff. }
    change (starts_word (String c' w'' ++ String " " rest)) with (negb (Py.isspace c')).
    rewrite Hc'. cbn [negb].
    rewrite IH; [reflexivity |]. unfold is_word. exact Hw'.
Qed.

Lemma words_word (w : string) : is_word w = true -> words w = [w].
Proof.
  induction w as [| c w' IH]; [discriminate |].
  unfold is_word. simpl. intros H.
  apply andb_true_iff in H as [Hc Hw']. apply negb_true_iff in Hc. rewrite Hc.
  destruct w' as [| c' w''].
  - reflexivity.
  - assert (Hc' : Py.isspace c' = false).
    { simpl in Hw'. apply andb_true_iff in Hw' as [Hc' _]. now apply negb_true_iff. }
    change (starts_word (String c' w'')) with (negb (Py.isspace c')).
    rewrite Hc'. cbn [negb].
    rewrite IH; [reflexivity |]. unfold is_word. exact Hw'.
Qed.

Lemma words_join (ws : list string) :
  Forall (fun w => is_word w = true) ws -> words (Py.join " " ws) = ws.
Proof.
  unfold Py.join.
  induction ws as [| w [| w' ws'] IH]; intros H.
  - reflexivity.
  - inversion H; subst. now apply words_word.
  - inversion H as [| ? ? Hw Hrest]; subst.
    change (String.concat " " (w :: w' :: ws'))
      with (w ++ String " " (String.concat " " (w' :: ws'))).
    rewrite (words_word_space _ _ Hw). now rewrite (IH Hrest).
Qed.

(** The sample [trim] is a normalization: trimming twice changes nothing. *)
Lemma trim_spaces_idempotent (s : string) :
  trim_spaces (trim_spaces s) = trim_spaces s.
Proof.
  unfold trim_spaces. now rewrite (words_join _ (words_are_words s)).
Qed.

(** A text that is one word is its own trimmed form. *)
Lemma trim_spaces_word (w : string) : is_word w = true -> trim_spaces w = w.
Proof. intros H. unfold trim_spaces. now rewrite (words_word _ H). Qed.

(** ** The store through the methods *)

Section Frame.

Context {I : Imports}.

Lemma heap_unchanged_ret {A : Type} (a : A) : heap_unchanged (ret a).
Proof. intros h. reflexivity. Qed.

Lemma heap_unchanged_raise {A : Type} (e : exn) : heap_unchanged (@raise I A e).
Proof. intros h. reflexivity. Qed.

Lemma heap_unchanged_get_self : heap_unchanged get_self.
Proof. intros h. reflexivity. Qed.

Lemma heap_unchanged_bind {A B : Type} (m : M A) (k : A -> M B) :
  heap_unchanged m -> (forall a, heap_unchanged (k a)) -> heap_unchanged (bind m k).
Proof.
  intros Hm Hk h. unfold bind. specialize (Hm h).
  destruct (m h) as [[a | e] h']; simpl in Hm; subst h'; [apply Hk | reflexivity].
Qed.

Lemma heap_unchanged_try_except {A : Type} (m : M A) (caught : exn -> bool) (handler : M A) :
  heap_unchanged m -> heap_unchanged handler -> heap_unchanged (try_except m caught handler).
Proof.
  intros Hm Hh h. unfold try_except. specialize (Hm h).
  destruct (m h) as [[a | e] h']; simpl in Hm; subst h'; [reflexivity |].
  destruct (caught e); [apply Hh | reflexivity].
Qed.

Lemma heap_unchanged_index_or_raise {A : Type} (o : option A) :
  heap_unchanged (index_or_raise o).
Proof. destruct o; [apply heap_unchanged_ret | apply heap_unchanged_raise]. Qed.

Lemma heap_unchanged_items (v : value) : heap_unchanged (items v).
Proof. destruct v; intros h; reflexivity. Qed.

Lemma heap_unchanged_subscript (v : value) (i : Z) : heap_unchanged (subscript v i).
Proof.
  destruct v; simpl; try apply heap_unchanged_index_or_raise; apply heap_unchanged_raise.
Qed.

Lemma heap_unchanged_slice (v : value) (lo hi : option Z) : heap_unchanged (slice v lo hi).
Proof. destruct v; intros h; reflexivity. Qed.

Create HintDb frame.
#[local] Hint Resolve heap_unchanged_ret heap_unchanged_raise heap_unchanged_get_self
  heap_unchanged_index_or_raise heap_unchanged_items heap_unchanged_subscript
  heap_unchanged_slice : frame.
#[local] Hint Extern 2 (heap_unchanged (bind _ _)) =>
  apply heap_unchanged_bind; [| intros ?] : frame.
#[local] Hint Extern 2 (heap_unchanged (try_except _ _ _)) =>
  apply heap_unchanged_try_except : frame.

Lemma heap_unchanged_page_xpath (xpath : string) : heap_unchanged (page_xpath xpath).
Proof.
  unfold page_xpath. apply heap_unchanged_bind; [auto with frame | intros this].
  destruct (page this) as [tree |]; [| auto with frame].
  destruct (xpath_eval tree xpath); auto with frame.
Qed.

Lemma heap_unchanged_working_sequence (element : value) (iloc iloc_from iloc_to : option Z) :
  heap_unchanged (working_sequence element iloc iloc_from iloc_to).
Proof.
  unfold working_sequence.
  apply heap_unchanged_bind; [destruct iloc; auto with frame | intros e1].
  apply heap_unchanged_bind; [destruct iloc_from, iloc_to; auto with frame | intros e2].
  apply heap_unchanged_bind; [destruct iloc_to; auto with frame | intros e3].
  apply heap_unchanged_bind; [destruct iloc_from; auto with frame | intros e4].
  auto with frame.
Qed.

Lemma heap_unchanged_get_list_by_xpath (xpath : string) (remove_empty : option bool) :
  heap_unchanged (get_list_by_xpath xpath remove_empty).
Proof.
  unfold get_list_by_xpath.
  apply heap_unchanged_bind; [apply heap_unchanged_page_xpath | intros elements].
  apply heap_unchanged_bind; [| auto with frame].
  destruct remove_empty as [[|] |]; auto with frame.
Qed.

Lemma heap_unchanged_get_text_by_xpath (xpath : string) (pos : Z)
    (iloc iloc_from iloc_to : option Z) (join_str : option string) :
  heap_unchanged (get_text_by_xpath xpath pos iloc iloc_from iloc_to join_str).
Proof.
  unfold get_text_by_xpath.
  apply heap_unchanged_bind; [apply heap_unchanged_page_xpath | intros element].
  destruct (negb (truthy_value element)); [auto with frame |].
  apply heap_unchanged_bind; [apply heap_unchanged_working_sequence | intros w].
  destruct join_str; auto 6 with frame.
Qed.

Lemma heap_unchanged_page_number_of (url_page : string) :
  heap_unchanged (page_number_of url_page).
Proof.
  unfold page_number_of.
  apply heap_unchanged_bind; [auto with frame | intros tail].
  apply heap_unchanged_bind; [auto with frame | intros token].
  destruct (Py.int token); auto with frame.
Qed.

Lemma heap_unchanged_last_page_loop (xpath_base : string) (paths : list string) :
  heap_unchanged (last_page_loop xpath_base paths).
Proof.
  induction paths as [| xpath paths' IH]; simpl; [auto with frame |].
  apply heap_unchanged_bind; [apply heap_unchanged_get_text_by_xpath | intros [text |]].
  - destruct (Py.truthy text); [apply heap_unchanged_page_number_of | exact IH].
  - exact IH.
Qed.

Lemma heap_unchanged_get_last_page_number (xpath_base : string) :
  heap_unchanged (get_last_page_number xpath_base).
Proof. apply heap_unchanged_last_page_loop. Qed.

Lemma heap_unchanged_raise_exception_if_not_found (xpath : string) :
  heap_unchanged (raise_exception_if_not_found xpath).
Proof.
  unfold raise_exception_if_not_found.
  apply heap_unchanged_bind; [apply heap_unchanged_get_text_by_xpath | intros found].
  destruct (negb (Py.truthy_opt found)); auto with frame.
Qed.

Lemma heap_unchanged_fields {A : Type} (m : M A) :
  heap_unchanged m -> fields_unchanged m.
Proof. intros H h. rewrite (H h). auto. Qed.

(** A call that leaves the store alone is its result and that store. *)
Lemma run_unchanged {A : Type} (m : M A) (h : Store) :
  heap_unchanged m -> m h = (result m h, h).
Proof. intros H. unfold result. rewrite <- (H h) at 3. now destruct (m h). Qed.

Lemma result_bind {A B : Type} (m : M A) (k : A -> M B) (h : Store) :
  heap_unchanged m ->
  result (bind m k) h =
  match result m h with
  | Return a => result (k a) h
  | Raise e => Raise e
  end.
Proof.
  intros H. unfold result at 1. unfold bind. rewrite (run_unchanged m h H).
  now destruct (result m h).
Qed.

End Frame.

(** ** What the extraction methods compute *)

Section Extraction.

Context {I : Imports}.

Lemma result_try_except {A : Type} (m handler : M A) (caught : exn -> bool) (h : Store) :
  heap_unchanged m ->
  result (try_except m caught handler) h =
  match result m h with
  | Return a => Return a
  | Raise e => if caught e then result handler h else Raise e
  end.
Proof.
  intros H. unfold result at 1. unfold try_except. rewrite (run_unchanged m h H).
  destruct (result m h) as [a | e]; [reflexivity |]. now destruct (caught e).
Qed.

(** The comprehension keeps, trimmed, the matches whose trimmed form is
    not empty: the same list as [kept]. *)
Lemma trimmed_nonempty_filter (l : list string) :
  trimmed_nonempty l = filter (fun s => negb (s =? "")%string) (map trim l).
Proof.
  unfold trimmed_nonempty. induction l as [| e l' IH]; [reflexivity |].
  simpl. rewrite truthy_eqb. destruct (negb (trim e =? "")%string); simpl; now rewrite IH.
Qed.

Lemma trimmed_nonempty_kept (h : Store) (xpath : string) :
  trimmed_nonempty (matches h xpath) = kept h xpath.
Proof. apply trimmed_nonempty_filter. Qed.



Lemma evaluates_matches (h : Store) (xpath : string) (texts : list string) :
  evaluates h xpath (XNodes texts) -> matches h xpath = texts.
Proof. intros (tree & Hp & Hx). unfold matches. now rewrite Hp, Hx. Qed.

(** A path with a match evaluates to the node-set of its matches. *)
Lemma matches_evaluates (h : Store) (xpath : string) :
  matches h xpath <> [] -> evaluates h xpath (XNodes (matches h xpath)).
Proof.
  unfold matches, evaluates. intros H.
  destruct (page (self h)) as [tree |]; [| congruence].
  exists tree. split; [reflexivity |].
  destruct (xpath_eval tree xpath); congruence.
Qed.

Lemma result_page_xpath (h : Store) (xpath : string) (r : xpath_result) :
  evaluates h xpath r ->
  result (page_xpath xpath) h =
  match r with
  | XNodes texts => Return (VList texts)
  | XString s => Return (VStr s)
  | XNumber nonzero => Return (VNumber nonzero)
  | XBoolean b => Return (VBoolean b)
  | XInvalid => Raise XPathEvalError
  end.
Proof.
  intros (tree & Hp & Hx). unfold result, page_xpath, bind, get_self. cbn [fst].
  rewrite Hp, Hx. now destruct r.
Qed.

Lemma result_page_xpath_unloaded (h : Store) (xpath : string) :
  page (self h) = None -> result (page_xpath xpath) h = Raise AttributeError.
Proof.
  intros Hp. unfold result, page_xpath, bind, get_self. cbn [fst]. now rewrite Hp.
Qed.

Lemma result_items_sequence (h : Store) (w : value) :
  is_sequence w = true -> result (items w) h = Return (seq_items w).
Proof. destruct w; (discriminate || reflexivity). Qed.

Lemma result_subscript_sequence (h : Store) (w : value) (i : Z) :
  is_sequence w = true ->
  result (subscript w i) h =
  match seq_subscript w i with
  | Some s => Return s
  | None => Raise IndexError
  end.
Proof.
  destruct w; try discriminate; intros _; unfold seq_subscript; simpl.
  - now destruct (Py.subscript l i).
  - unfold Py.str_subscript. now destruct (Py.subscript (Py.chars s) i).
Qed.

Lemma result_slice_sequence (h : Store) (w : value) (lo hi : option Z) :
  is_sequence w = true ->
  exists w', result (slice w lo hi) h = Return w' /\ is_sequence w' = true.
Proof. destruct w; try discriminate; intros _; eexists; split; reflexivity. Qed.

(** The shaping steps on a sequence: they leave a sequence, or raise
    IndexError at the [iloc] step. *)
Lemma working_sequence_sequence (h : Store) (v : value) (iloc f t : option Z) :
  is_sequence v = true ->
  (exists w, result (working_sequence v iloc f t) h = Return w /\ is_sequence w = true)
  \/ (result (working_sequence v iloc f t) h = Raise IndexError
      /\ exists k, iloc = Some k /\ seq_subscript v k = None).
Proof.
  intros Hv.
  assert (Hslices : forall v1, is_sequence v1 = true ->
            exists w, result
              (element <- match f, t with
                          | Some a, Some b => slice v1 (Some a) (Some b)
                          | _, _ => ret v1
                          end ;;
               element <- match t with
                          | Some b => slice element None (Some b)
                          | None => ret element
                          end ;;
               element <- match f with
                          | Some a => slice element (Some a) None
                          | None => ret element
                          end ;;
               ret element) h = Return w /\ is_sequence w = true).
  { intros v1 Hv1. destruct v1; try discriminate; destruct f, t;
      eexists; split; reflexivity. }
  unfold working_sequence. destruct iloc as [k |].
  - rewrite result_bind by auto using heap_unchanged_bind, heap_unchanged_subscript,
      heap_unchanged_ret.
    rewrite result_bind by apply heap_unchanged_subscript.
    rewrite (result_subscript_sequence h v k Hv).
    destruct (seq_subscript v k) as [s |] eqn:Ek.
    + left. cbn [result ret fst]. apply (Hslices (VStr s)). reflexivity.
    + right. split; [reflexivity | eauto].
  - left. rewrite result_bind by apply heap_unchanged_ret.
    cbn [result ret fst]. apply (Hslices v Hv).
Qed.

(** No match on a loaded page: null, whatever the options. *)
Lemma get_text_by_xpath_empty_nodes (h : Store) (xpath : string) (pos : Z)
    (iloc f t : option Z) (j : option string) :
  evaluates h xpath (XNodes []) ->
  result (get_text_by_xpath xpath pos iloc f t j) h = Return None.
Proof.
  intros He. unfold get_text_by_xpath.
  rewrite result_bind by apply heap_unchanged_page_xpath.
  rewrite (result_page_xpath h xpath _ He). reflexivity.
Qed.


(** With a match, the method is the shaping steps followed by the join or
    by the positional access. *)
Lemma get_text_by_xpath_match (h : Store) (xpath : string) (pos : Z)
    (iloc f t : option Z) (j : option string) :
  matches h xpath <> [] ->
  result (get_text_by_xpath xpath pos iloc f t j) h =
  match result (working_sequence (VList (kept h xpath)) iloc f t) h with
  | Raise e => Raise e
  | Return w =>
      match j with
      | Some sep => Return (Some (Py.join sep (map trim (seq_items w))))
      | None => Return (option_map trim (seq_subscript w pos))
      end
  end.
Proof.
  intros Hm. pose proof (matches_evaluates h xpath Hm) as He.
  rewrite <- trimmed_nonempty_kept. unfold get_text_by_xpath.
  rewrite result_bind by apply heap_unchanged_page_xpath.
  rewrite (result_page_xpath h xpath _ He).
  destruct (matches h xpath) as [| m ms] eqn:E; [congruence |].
  cbn [truthy_value negb].
  rewrite result_bind by apply heap_unchanged_working_sequence.
  destruct (working_sequence_sequence h (VList (trimmed_nonempty (m :: ms))) iloc f t eq_refl)
    as [(w & Hw & Hseq) | (Hw & _)]; rewrite Hw; [| reflexivity].
  destruct j as [sep |].
  - rewrite result_bind by apply heap_unchanged_items.
    now rewrite (result_items_sequence h w Hseq).
  - rewrite result_try_except
      by (apply heap_unchanged_bind; [apply heap_unchanged_subscript |
          intros ?; apply heap_unchanged_ret]).
    rewrite result_bind by apply heap_unchanged_subscript.
    rewrite (result_subscript_sequence h w pos Hseq).
    now destruct (seq_subscript w pos).
Qed.



Lemma subscript_In {A : Type} (l : list A) (i : Z) (a : A) :
  Py.subscript l i = Some a -> In a l.
Proof.
  unfold Py.subscript.
  destruct ((0 <=? _) && _); [| discriminate]. apply nth_error_In.
Qed.


(** The page number of a text: its [page_indicator], or ValueError. *)
Lemma result_page_number_of (h : Store) (text : string) :
  result (page_number_of text) h =
  match page_indicator text with
  | Some n => Return n
  | None => Raise ValueError
  end.
Proof.
  unfold page_indicator, result, page_number_of, bind.
  rewrite subscript_split_last. simpl.
  rewrite subscript_split_last. simpl.
  destruct (Py.int _); reflexivity.
Qed.

(** One turn of the loop of [get_last_page_number], in any store. *)
Lemma result_last_page_loop_step (h : Store) (xpath_base xpath : string) (paths : list string) :
  result (last_page_loop xpath_base (xpath :: paths)) h =
  match result (get_text_by_xpath (xpath_base ++ xpath) 0 None None None None) h with
  | Return (Some text) =>
      if Py.truthy text then result (page_number_of text) h
      else result (last_page_loop xpath_base paths) h
  | Return None => result (last_page_loop xpath_base paths) h
  | Raise e => Raise e
  end.
Proof.
  simpl last_page_loop.
  rewrite result_bind by apply heap_unchanged_get_text_by_xpath.
  destruct (result (get_text_by_xpath _ 0 None None None None) h) as [[text |] | e];
    try reflexivity.
  destruct (Py.truthy text); reflexivity.
Qed.


End Extraction.
(** ** Pagination *)

Section Pagination.

Context {I : Imports}.

Hypothesis trim_idempotent : forall s, trim (trim s) = trim s.


End Pagination.

(** ** The request *)

Section Request.

Context {I : Imports}.

Lemma make_request_address (h : Store) (url : option string) :
  match url with
  | Some u => if negb (Py.truthy u) then URL (self h) else u
  | None => URL (self h)
  end = address h url.
Proof. destruct url as [[| c u] |]; reflexivity. Qed.

(** A call starts with the delay and the request, and what it does next
    depends on the answer alone. *)
Lemma make_request_run (h : Store) (url : option string) :
  make_request url h =
  (match answer h url with
   | Raises TooManyRedirects =>
       Raise (HTTPException 404 ("Not found for url: " ++ address h url))
   | Raises ConnectionError =>
       Raise (HTTPException 500 ("Connection error for url: " ++ address h url))
   | Raises (OtherException e) =>
       Raise (HTTPException 500 ("Error for url: " ++ address h url ++ ". " ++ e))
   | Responds r =>
       if (400 <=? status_code r) && (status_code r <? 500) then
         Raise (HTTPException (status_code r)
                  ("Client Error. " ++ reason r ++ " for url: " ++ address h url))
       else if (500 <=? status_code r) && (status_code r <? 600) then
         Raise (HTTPException (status_code r)
                  ("Server Error. " ++ reason r ++ " for url: " ++ address h url))
       else Return r
   end,
   mkStore (self h)
     (log h ++ [Sleep (random_uniform (log h) (3 # 2) 3);
                Get (address h url) headers 15])%list).
Proof.
  unfold make_request, answer, bind, get_self, sleep_uniform, get, get_log, emit, bind, ret, raise.
  cbn [self log fst snd]. rewrite make_request_address.
  rewrite <- app_assoc. cbn [app].
  destruct (requests_get _ _ _ _) as [[| | e] | r]; try reflexivity.
  destruct ((400 <=? status_code r) && (status_code r <? 500)); [reflexivity |].
  destruct ((500 <=? status_code r) && (status_code r <? 600)); reflexivity.
Qed.


End Request.

(** ** The shaping steps *)

Lemma working_sequence_none {I : Imports} (h : Store) (v : value) :
  result (working_sequence v None None None) h = Return v.
Proof. reflexivity. Qed.

(** What [iloc] alone computes in general: the character at [pos] of the
    selected element, trimmed, or null when the element is shorter. *)
Lemma get_text_by_xpath_iloc {I : Imports} (h : Store) (xpath : string) (pos k : Z) (e : string) :
  Py.subscript (kept h xpath) k = Some e ->
  result (get_text_by_xpath xpath pos (Some k) None None None) h
  = Return (option_map trim (Py.str_subscript e pos)).
Proof.
  intros He.
  assert (Hm : matches h xpath <> []).
  { intros E. unfold kept in He. rewrite E in He. simpl in He.
    now rewrite subscript_nil in He. }
  rewrite get_text_by_xpath_match by exact Hm.
  unfold working_sequence, result, bind, subscript, index_or_raise. simpl.
  rewrite He. reflexivity.
Qed.

(** What the two bounds together compute in general: three slices in a
    row. *)
Lemma working_sequence_both_bounds {I : Imports} (h : Store) (l : list string) (f t : Z) :
  result (working_sequence (VList l) None (Some f) (Some t)) h
  = Return (VList (Py.slice (Py.slice (Py.slice l (Some f) (Some t)) None (Some t))
                            (Some f) None)).
Proof. reflexivity. Qed.

(** ** Concrete runs *)

Example subscript_last : Py.subscript ["a"; "b"; "c"] (-1) = Some "c".
Proof. reflexivity. Qed.

Example subscript_past_end : Py.subscript ["a"; "b"; "c"] 3 = None.
Proof. reflexivity. Qed.

Example subscript_before_start : Py.subscript ["a"; "b"; "c"] (-4) = None.
Proof. reflexivity. Qed.

Example slice_middle : Py.slice ["a"; "b"; "c"; "d"] (Some 1) (Some 3) = ["b"; "c"].
Proof. reflexivity. Qed.

Example slice_negative :
  Py.slice ["a"; "b"; "c"; "d"] (Some (-3)) (Some (-1)) = ["b"; "c"].
Proof. reflexivity. Qed.

Example slice_crossed : Py.slice ["a"; "b"; "c"; "d"] (Some 3) (Some 1) = [].
Proof. reflexivity. Qed.

Example split_fields : Py.split "=" "a=b=" = ["a"; "b"; ""].
Proof. reflexivity. Qed.

Example split_empty : Py.split "/" "" = [""].
Proof. reflexivity. Qed.

Example int_padded : Py.int " 007 " = Some 7.
Proof. reflexivity. Qed.

Example int_signed : Py.int "-1_000" = Some (-1000).
Proof. reflexivity. Qed.

Example int_rejects :
  Py.int "1__0" = None /\ Py.int "" = None /\ Py.int "7a" = None
  /\ Py.int "- 1" = None /\ Py.int "_1" = None /\ Py.int "1_" = None.
Proof. repeat split; reflexivity. Qed.

Example trim_spaces_run : trim_spaces "  Real   Madrid " = "Real Madrid".
Proof. reflexivity. Qed.

(** The pagination example of the specification. *)
Example last_page_number_seven :
  result (get_last_page_number "")
    (sample_heap "https://host/club"
       [("//li[@class='last-page']//@href",
         ["/verein/page/Spielplan/saison_id/2023?page=7"])])
  = Return 7.
Proof. reflexivity. Qed.

Example last_page_number_active :
  result (get_last_page_number "//div")
    (sample_heap "https://host/club"
       [("//div//li[@class='active-page']//@href", ["/suche/page/3"])])
  = Return 3.
Proof. reflexivity. Qed.

Example last_page_number_default :
  result (get_last_page_number "") (sample_heap "https://host/club" []) = Return 1.
Proof. reflexivity. Qed.

Example join_examples :
  let h := sample_heap "https://host/club" [("//td/text()", ["a"; "b"; "c"])] in
  result (get_text_by_xpath "//td/text()" 0 None None None (Some "")) h = Return (Some "abc")
  /\ result (get_text_by_xpath "//td/text()" 0 None None None (Some "-")) h
     = Return (Some "a-b-c").
Proof. split; reflexivity. Qed.

Example require_nonempty_raises :
  result (raise_exception_if_not_found "//h1/text()") (sample_heap "https://host/club" [])
  = Raise (HTTPException 404 "Invalid request (url: https://host/club)").
Proof. reflexivity. Qed.

Example make_request_redirects :
  result (make_request (Some "https://host/redirects")) (sample_heap "https://host/club" [])
  = Raise (HTTPException 404 "Not found for url: https://host/redirects").
Proof. reflexivity. Qed.

(** ** The properties of the specification *)

(** C1. The specification says that [iloc_from] and [iloc_to] given
    together leave the sub-range [[iloc_from, iloc_to)] of the kept
    matches.  The method takes that sub-range and then goes through the
    two following tests as well, which cut it again: with 1 and 3 on
    the matches a, b, c, d the sub-range is b, c and what reaches the
    join and the positional access is c alone. *)
Theorem C1_range_is_cut_again :
  let h := sample_heap "https://host/club" [("//td/text()", ["a"; "b"; "c"; "d"])] in
  kept h "//td/text()" = ["a"; "b"; "c"; "d"]
  /\ Py.slice (kept h "//td/text()") (Some 1) (Some 3) = ["b"; "c"]
  /\ result (working_sequence (VList (kept h "//td/text()")) None (Some 1) (Some 3)) h
     = Return (VList ["c"])
  /\ result (get_text_by_xpath "//td/text()" 0 None (Some 1) (Some 3) (Some "-")) h
     = Return (Some "c")
  /\ result (get_text_by_xpath "//td/text()" 0 None (Some 1) (Some 3) None) h
     = Return (Some "c").
Proof. repeat split; reflexivity. Qed.

(** C2. The specification says that [iloc] alone returns the trimmed
    element at that position.  The method selects the element and then
    still applies the positional access to it, so that it returns one
    character: the matches ab, cd with [iloc] 1 give c, not cd. *)
Theorem C2_iloc_returns_one_character :
  let h := sample_heap "https://host/club" [("//td/text()", ["ab"; "cd"])] in
  kept h "//td/text()" = ["ab"; "cd"]
  /\ Py.subscript (kept h "//td/text()") 1 = Some "cd"
  /\ result (get_text_by_xpath "//td/text()" 0 (Some 1) None None None) h
     = Return (Some "c").
Proof. repeat split; reflexivity. Qed.

(** C3, as stated, fails on a path without match: there [iloc] is out of
    range of the (empty) list of kept matches and the method returns
    null instead of raising. *)
Lemma C3_no_match_counterexample :
  let h := sample_heap "https://host/club" [] in
  out_of_range (kept h "//td/text()") 0
  /\ result (get_text_by_xpath "//td/text()" 0 (Some 0) None None None) h = Return None
  /\ result (get_text_by_xpath "//td/text()" 0 (Some 0) None None None) h
     <> Raise IndexError.
Proof.
  repeat split; [right; vm_compute; discriminate | discriminate].
Qed.

(** C3, amended.  On a path with at least one match, an index [k] out of
    range of the kept matches gives null when it is passed as [pos] with
    no other option, and raises IndexError when it is passed as [iloc],
    whatever the other options; the two outcomes differ. *)
Theorem C3_pos_null_iloc_raises {I : Imports} (h : Store) (xpath : string) (k : Z) :
  matches h xpath <> [] ->
  out_of_range (kept h xpath) k ->
  result (get_text_by_xpath xpath k None None None None) h = Return None
  /\ (forall pos f t j,
        result (get_text_by_xpath xpath pos (Some k) f t j) h = Raise IndexError)
  /\ (forall pos f t j,
        result (get_text_by_xpath xpath k None None None None) h
        <> result (get_text_by_xpath xpath pos (Some k) f t j) h).
Proof.
  intros Hm Hk.
  assert (Hpos : result (get_text_by_xpath xpath k None None None None) h = Return None).
  { rewrite get_text_by_xpath_match by exact Hm.
    rewrite (working_sequence_none h). cbn [seq_subscript seq_items option_map].
    unfold seq_subscript. cbn [seq_items].
    now rewrite (subscript_out_of_range _ _ Hk). }
  assert (Hiloc : forall pos f t j,
             result (get_text_by_xpath xpath pos (Some k) f t j) h = Raise IndexError).
  { intros pos f t j. rewrite get_text_by_xpath_match by exact Hm.
    unfold working_sequence, result, bind, subscript, index_or_raise. simpl.
    now rewrite (subscript_out_of_range _ _ Hk). }
  repeat split; [exact Hpos | exact Hiloc |].
  intros pos f t j. rewrite Hpos, Hiloc. discriminate.
Qed.

Lemma C3_pos_null_iloc_raises_witness :
  let h := sample_heap "https://host/club" [("//td/text()", ["a"; "b"])] in
  result (get_text_by_xpath "//td/text()" 2 None None None None) h = Return None
  /\ result (get_text_by_xpath "//td/text()" 0 (Some 2) None None None) h
     = Raise IndexError.
Proof.
  intros h.
  assert (Hm : matches h "//td/text()" <> []) by (vm_compute; discriminate).
  assert (Hk : out_of_range (kept h "//td/text()") 2) by (right; vm_compute; discriminate).
  destruct (C3_pos_null_iloc_raises h "//td/text()" 2 Hm Hk) as (Hpos & Hiloc & _).
  split; [exact Hpos | exact (Hiloc 0 None None None)].
Defined.




(** C5. When the request of [make_request] is answered with status code
    [c]: a code from 400 to 499 raises the client error with that code,
    a code from 500 to 599 raises the server error with that code, and
    any other code returns the response. *)
Theorem C5_status_code_classes {I : Imports} (h : Store) (url : option string) (r : Response) :
  answer h url = Responds r ->
  (400 <= status_code r < 500 ->
   result (make_request url) h
   = Raise (HTTPException (status_code r)
              ("Client Error. " ++ reason r ++ " for url: " ++ address h url)))
  /\ (500 <= status_code r < 600 ->
      result (make_request url) h
      = Raise (HTTPException (status_code r)
                 ("Server Error. " ++ reason r ++ " for url: " ++ address h url)))
  /\ (~ 400 <= status_code r < 600 -> result (make_request url) h = Return r).
Proof.
  intros Ha. unfold result. rewrite make_request_run, Ha. cbn [fst].
  repeat split; intros Hc.
  - destruct (Z.leb_spec 400 (status_code r)); [| lia].
    destruct (Z.ltb_spec (status_code r) 500); [reflexivity | lia].
  - destruct (Z.leb_spec 400 (status_code r)); [| lia].
    destruct (Z.ltb_spec (status_code r) 500); [lia |]. cbn [andb].
    destruct (Z.leb_spec 500 (status_code r)); [| lia].
    destruct (Z.ltb_spec (status_code r) 600); [reflexivity | lia].
  - destruct (Z.leb_spec 400 (status_code r)), (Z.ltb_spec (status_code r) 500);
      cbn [andb]; try lia;
      destruct (Z.leb_spec 500 (status_code r)), (Z.ltb_spec (status_code r) 600);
      cbn [andb]; try lia; reflexivity.
Qed.

Lemma C5_status_code_classes_witness :
  let h := sample_heap "https://host/club" [] in
  result (make_request (Some "https://host/404")) h
  = Raise (HTTPException 404 "Client Error. Not Found for url: https://host/404")
  /\ result (make_request (Some "https://host/503")) h
     = Raise (HTTPException 503 "Server Error. Service Unavailable for url: https://host/503")
  /\ result (make_request None) h = Return (mkResponse 200 "OK" "<html></html>").
Proof.
  intros h. split; [| split].
  - refine (proj1 (C5_status_code_classes h (Some "https://host/404")
                     (mkResponse 404 "Not Found" "") _) _); [reflexivity | simpl; lia].
  - refine (proj1 (proj2 (C5_status_code_classes h (Some "https://host/503")
                     (mkResponse 503 "Service Unavailable" "") _)) _);
      [reflexivity | simpl; lia].
  - refine (proj2 (proj2 (C5_status_code_classes h None
                     (mkResponse 200 "OK" "<html></html>") _)) _);
      [reflexivity | simpl; lia].
Defined.



(** What [get_list_by_xpath] computes on a path that evaluates to a
    node-set. *)
Lemma get_list_by_xpath_nodes {I : Imports} (h : Store) (xpath : string)
    (texts : list string) (remove_empty : option bool) :
  evaluates h xpath (XNodes texts) ->
  result (get_list_by_xpath xpath remove_empty) h
  = Return (match remove_empty with
            | Some true => filter (fun s => negb (s =? "")%string) (map trim texts)
            | _ => map trim texts
            end).
Proof.
  intros He. unfold get_list_by_xpath.
  rewrite result_bind by apply heap_unchanged_page_xpath.
  rewrite (result_page_xpath h xpath _ He).
  destruct remove_empty as [[|] |]; unfold result, bind, items, ret; cbn [fst].
  - rewrite trimmed_nonempty_filter. now destruct (filter _ _).
  - now destruct (map trim texts).
  - now destruct (map trim texts).
Qed.

(** C7, as stated, fails: nothing in [get_list_by_xpath] handles a
    failure of the evaluation.  A path that is not well formed makes the
    call raise lxml's XPathEvalError, and a page that is not loaded
    makes it raise AttributeError. *)
Lemma C7_evaluation_failure_counterexample :
  let h := sample_store "https://host/club"
             (Some (mkSamplePage [] [("//td[", XInvalid)])) in
  evaluates h "//td[" XInvalid
  /\ result (get_list_by_xpath "//td[" (Some true)) h = Raise XPathEvalError
  /\ result (get_list_by_xpath "//td" (Some true)) (sample_store "https://host/club" None)
     = Raise AttributeError.
Proof.
  intros h. split; [| split; reflexivity].
  eexists. split; reflexivity.
Qed.

(** C7, amended.  For every path that evaluates to a list of text values
    on a loaded page, [get_list_by_xpath] returns a list and does not
    raise.  A path without match gives the empty list; with
    [remove_empty] true the result is the matches, trimmed, without
    those that trim to the empty string; with [remove_empty] false it
    is all the matches, trimmed, empty strings included. *)
Theorem C7_list_by_xpath_on_nodes {I : Imports} (h : Store) (xpath : string)
    (texts : list string) :
  evaluates h xpath (XNodes texts) ->
  (forall remove_empty, exists l, result (get_list_by_xpath xpath remove_empty) h = Return l)
  /\ (forall remove_empty,
        texts = [] ->
        result (get_list_by_xpath xpath remove_empty) h = Return [])
  /\ result (get_list_by_xpath xpath (Some true)) h
     = Return (filter (fun s => negb (s =? "")%string) (map trim texts))
  /\ result (get_list_by_xpath xpath (Some false)) h = Return (map trim texts).
Proof.
  intros He. split; [| split; [| split]].
  - intros re. rewrite (get_list_by_xpath_nodes h xpath texts re He). eauto.
  - intros re ->. rewrite (get_list_by_xpath_nodes h xpath [] re He).
    destruct re as [[|] |]; reflexivity.
  - exact (get_list_by_xpath_nodes h xpath texts (Some true) He).
  - exact (get_list_by_xpath_nodes h xpath texts (Some false) He).
Qed.

Lemma C7_list_by_xpath_on_nodes_witness :
  let h := sample_heap "https://host/club" [("//td/text()", [" a "; "  "; "b"])] in
  result (get_list_by_xpath "//th/text()" (Some true)) h = Return []
  /\ result (get_list_by_xpath "//td/text()" (Some true)) h = Return ["a"; "b"]
  /\ result (get_list_by_xpath "//td/text()" (Some false)) h = Return ["a"; ""; "b"].
Proof.
  intros h.
  assert (Hth : evaluates h "//th/text()" (XNodes [])) by (eexists; split; reflexivity).
  assert (Htd : evaluates h "//td/text()" (XNodes [" a "; "  "; "b"]))
    by (eexists; split; reflexivity).
  split; [| split].
  - exact (proj1 (proj2 (C7_list_by_xpath_on_nodes h "//th/text()" [] Hth))
             (Some true) eq_refl).
  - exact (proj1 (proj2 (proj2 (C7_list_by_xpath_on_nodes h "//td/text()" _ Htd)))).
  - exact (proj2 (proj2 (proj2 (C7_list_by_xpath_on_nodes h "//td/text()" _ Htd)))).
Defined.

(** C8, as stated, fails on a path without match: the method returns
    null, not the string that joining the (empty) list of kept matches
    would give. *)
Lemma C8_no_match_counterexample :
  let h := sample_heap "https://host/club" [] in
  matches h "//td/text()" = []
  /\ Py.join "-" (map (@trim sample) (kept h "//td/text()")) = ""
  /\ result (get_text_by_xpath "//td/text()" 0 None None None (Some "-")) h = Return None
  /\ result (get_text_by_xpath "//td/text()" 0 None None None (Some "-")) h
     <> Return (Some (Py.join "-" (map (@trim sample) (kept h "//td/text()")))).
Proof. repeat split; discriminate. Qed.

(** C8, amended.  On a path with at least one match, for every
    separator [sep], the empty string included, and when [iloc] is not
    given and [iloc_from] and [iloc_to] are not given together: the
    result is the string joining with [sep] all the elements of the
    working sequence, each trimmed again, whatever [pos] is.  The
    working sequence is the kept matches, their part up to [iloc_to],
    or their part from [iloc_from]. *)
Theorem C8_join_comes_last {I : Imports} (h : Store) (xpath sep : string) :
  matches h xpath <> [] ->
  (forall pos,
     result (get_text_by_xpath xpath pos None None None (Some sep)) h
     = Return (Some (Py.join sep (map trim (kept h xpath)))))
  /\ (forall pos t,
        result (get_text_by_xpath xpath pos None None (Some t) (Some sep)) h
        = Return (Some (Py.join sep (map trim (Py.slice (kept h xpath) None (Some t))))))
  /\ (forall pos f,
        result (get_text_by_xpath xpath pos None (Some f) None (Some sep)) h
        = Return (Some (Py.join sep (map trim (Py.slice (kept h xpath) (Some f) None))))).
Proof.
  intros Hm.
  split; [| split]; intros; rewrite get_text_by_xpath_match by exact Hm; reflexivity.
Qed.

Lemma C8_join_comes_last_witness :
  let h := sample_heap "https://host/club" [("//td/text()", ["a"; "b"; "c"])] in
  result (get_text_by_xpath "//td/text()" 7 None None None (Some "")) h = Return (Some "abc")
  /\ result (get_text_by_xpath "//td/text()" 0 None None None (Some "-")) h
     = Return (Some "a-b-c")
  /\ result (get_text_by_xpath "//td/text()" 0 None None (Some 2) (Some "-")) h
     = Return (Some "a-b").
Proof.
  intros h.
  assert (Hm : matches h "//td/text()" <> []) by (vm_compute; discriminate).
  split; [| split].
  - exact (proj1 (C8_join_comes_last h "//td/text()" "" Hm) 7).
  - exact (proj1 (C8_join_comes_last h "//td/text()" "-" Hm) 0).
  - exact (proj1 (proj2 (C8_join_comes_last h "//td/text()" "-" Hm)) 0 2).
Defined.



(** C10. Each extraction method, [get_list_by_xpath],
    [get_text_by_xpath], [get_last_page_number] and
    [raise_exception_if_not_found], leaves the fields [URL], [page] and
    [response] of the instance as they were, for every heap and
    argument, hence whether the call returns or raises. *)
Theorem C10_extraction_leaves_fields {I : Imports} :
  (forall xpath remove_empty, fields_unchanged (get_list_by_xpath xpath remove_empty))
  /\ (forall xpath pos iloc iloc_from iloc_to join_str,
        fields_unchanged (get_text_by_xpath xpath pos iloc iloc_from iloc_to join_str))
  /\ (forall xpath_base, fields_unchanged (get_last_page_number xpath_base))
  /\ (forall xpath, fields_unchanged (raise_exception_if_not_found xpath)).
Proof.
  split; [| split; [| split]]; intros; apply heap_unchanged_fields.
  - apply heap_unchanged_get_list_by_xpath.
  - apply heap_unchanged_get_text_by_xpath.
  - apply heap_unchanged_get_last_page_number.
  - apply heap_unchanged_raise_exception_if_not_found.
Qed.

(** ** Further properties of the request *)

(** X1. A transport failure of the request becomes an HTTPException: too
    many redirects give status 404, a connection error gives status
    500, and any other exception gives status 500 with its message
    appended; each message names the address that was requested. *)
Theorem X1_transport_failures {I : Imports} (h : Store) (url : option string) :
  (answer h url = Raises TooManyRedirects ->
   result (make_request url) h
   = Raise (HTTPException 404 ("Not found for url: " ++ address h url)))
  /\ (answer h url = Raises ConnectionError ->
      result (make_request url) h
      = Raise (HTTPException 500 ("Connection error for url: " ++ address h url)))
  /\ (forall message,
        answer h url = Raises (OtherException message) ->
        result (make_request url) h
        = Raise (HTTPException 500
                   ("Error for url: " ++ address h url ++ ". " ++ message))).
Proof.
  unfold result. rewrite make_request_run.
  split; [| split]; [intros -> | intros -> | intros message ->]; reflexivity.
Qed.

Lemma X1_transport_failures_witness :
  let h := sample_heap "https://host/club" [] in
  result (make_request (Some "https://host/redirects")) h
  = Raise (HTTPException 404 "Not found for url: https://host/redirects")
  /\ result (make_request (Some "https://host/refused")) h
     = Raise (HTTPException 500 "Connection error for url: https://host/refused").
Proof.
  intros h. split.
  - refine (proj1 (X1_transport_failures h (Some "https://host/redirects")) _).
    reflexivity.
  - refine (proj1 (proj2 (X1_transport_failures h (Some "https://host/refused"))) _).
    reflexivity.
Defined.

(** X2. Whatever the outside world answers, [make_request] either
    returns the response it received, whose status is then outside
    400..599, or raises an HTTPException whose status is inside
    400..599; it raises nothing else. *)
Theorem X2_make_request_outcomes {I : Imports} (h : Store) (url : option string) :
  match result (make_request url) h with
  | Return r => answer h url = Responds r /\ ~ error_status (status_code r)
  | Raise (HTTPException c _) => error_status c
  | Raise _ => False
  end.
Proof.
  unfold result, error_status. rewrite make_request_run. cbn [fst].
  destruct (answer h url) as [[| | message] | r]; try lia.
  destruct (Z.leb_spec 400 (status_code r)), (Z.ltb_spec (status_code r) 500);
    cbn [andb]; try lia;
    destruct (Z.leb_spec 500 (status_code r)), (Z.ltb_spec (status_code r) 600);
    cbn [andb]; try lia; split; (reflexivity || lia).
Qed.

(** X3. Every call of [make_request], failing or not, leaves the
    instance as it was and adds to the log exactly two events: the
    delay drawn with the bounds 1.5 and 3.0, then one request to the
    address with the fixed headers and a timeout of 15.  There is no
    second attempt: the number of requests grows by one. *)
Theorem X3_one_delay_then_one_request {I : Imports} (h : Store) (url : option string) :
  self (snd (make_request url h)) = self h
  /\ log (snd (make_request url h))
     = (log h ++ [Sleep (random_uniform (log h) (3 # 2) 3);
                  Get (address h url) headers 15])%list
  /\ List.length (requests_of (log (snd (make_request url h))))
     = S (List.length (requests_of (log h))).
Proof.
  rewrite make_request_run. cbn [snd self log].
  split; [reflexivity | split; [reflexivity |]].
  unfold requests_of. rewrite filter_app, length_app. simpl. lia.
Qed.

(** X4. The address requested is the argument when it is a non-empty
    string, and the address bound to the instance otherwise: calling
    with no argument, with the empty string or with the bound address
    itself is the same call. *)
Theorem X4_default_address {I : Imports} (h : Store) :
  make_request None h = make_request (Some (URL (self h))) h
  /\ make_request (Some "") h = make_request (Some (URL (self h))) h
  /\ (forall c u, address h (Some (String c u)) = String c u)
  /\ address h None = URL (self h).
Proof.
  assert (Ha : address h (Some (URL (self h))) = URL (self h)).
  { unfold address. now destruct (URL (self h)). }
  repeat rewrite make_request_run. unfold answer. rewrite Ha.
  repeat split.
Qed.

(** X5. [request_url_bsoup] fetches the address bound to the instance
    and nothing else: it fails exactly as that request fails, with
    the same exception, and otherwise returns the lenient parse of the
    body of the response; its effects are those of the one request. *)
Theorem X5_request_url_bsoup {I : Imports} {B : Soup} (h : Store) :
  result request_url_bsoup h
  = match result (make_request None) h with
    | Return r => Return (html_parser (content r))
    | Raise e => Raise e
    end
  /\ self (snd (request_url_bsoup h)) = self h
  /\ log (snd (request_url_bsoup h))
     = (log h ++ [Sleep (random_uniform (log h) (3 # 2) 3);
                  Get (URL (self h)) headers 15])%list.
Proof.
  unfold result, request_url_bsoup, bind, ret.
  rewrite make_request_run. cbn [fst snd].
  change (address h None) with (URL (self h)).
  destruct (answer h None) as [[| | message] | r]; cbn [fst snd self log];
    try (repeat split; reflexivity).
  destruct ((400 <=? status_code r) && (status_code r <? 500));
    [repeat split; reflexivity |].
  destruct ((500 <=? status_code r) && (status_code r <? 600));
    repeat split; reflexivity.
Qed.


(** ** Further properties of the extraction methods *)

Lemma subscript_None_out_of_range {A : Type} (l : list A) (i : Z) :
  Py.subscript l i = None -> out_of_range l i.
Proof.
  intros H. unfold out_of_range.
  destruct (Z_lt_dec i (- Py.len l)) as [| Hlo]; [now left |].
  destruct (Z_le_dec (Py.len l) i) as [| Hhi]; [now right |].
  assert (Hin : ~ out_of_range l i) by (unfold out_of_range; lia).
  destruct (subscript_in_range l i Hin) as [a Ha]. congruence.
Qed.


(** The default call on a path that evaluates to a node-set. *)
Lemma get_text_by_xpath_default_nodes {I : Imports} (h : Store) (xpath : string)
    (texts : list string) (pos : Z) :
  evaluates h xpath (XNodes texts) ->
  result (get_text_by_xpath xpath pos None None None None) h
  = Return (option_map trim (Py.subscript (kept h xpath) pos)).
Proof.
  intros He. pose proof (evaluates_matches h xpath texts He) as Hm.
  destruct texts as [| m ms].
  - rewrite (get_text_by_xpath_empty_nodes h xpath pos None None None None He).
    unfold kept. rewrite Hm. simpl. now rewrite subscript_nil.
  - rewrite get_text_by_xpath_match by (rewrite Hm; discriminate). reflexivity.
Qed.



(** What the text call does when the page is not loaded, and on a path
    that does not evaluate to a node-set. *)
Lemma get_text_by_xpath_other {I : Imports} (h : Store) (xpath : string) (pos : Z)
    (iloc f t : option Z) (j : option string) :
  (page (self h) = None ->
   result (get_text_by_xpath xpath pos iloc f t j) h = Raise AttributeError)
  /\ (evaluates h xpath XInvalid ->
      result (get_text_by_xpath xpath pos iloc f t j) h = Raise XPathEvalError)
  /\ (evaluates h xpath (XNumber true) \/ evaluates h xpath (XBoolean true) ->
      result (get_text_by_xpath xpath pos iloc f t j) h = Raise TypeError)
  /\ (evaluates h xpath (XNumber false) \/ evaluates h xpath (XBoolean false)
      \/ evaluates h xpath (XString "") ->
      result (get_text_by_xpath xpath pos iloc f t j) h = Return None).
Proof.
  unfold get_text_by_xpath.
  rewrite result_bind by apply heap_unchanged_page_xpath.
  split; [| split; [| split]].
  - intros Hp. now rewrite result_page_xpath_unloaded.
  - intros He. now rewrite (result_page_xpath h xpath _ He).
  - intros [He | He]; rewrite (result_page_xpath h xpath _ He);
      destruct iloc, f, t, j; reflexivity.
  - intros [He | [He | He]]; rewrite (result_page_xpath h xpath _ He); reflexivity.
Qed.






Lemma kept_fixed {I : Imports} (h : Store) (xpath e : string) :
  (forall s, trim (trim s) = trim s) -> In e (kept h xpath) -> trim e = e.
Proof.
  intros Hidem H. unfold kept in H. apply filter_In in H as [H _].
  apply in_map_iff in H as (m & <- & _). apply Hidem.
Qed.

(** X9. On a path that evaluates to a list of text values, and with a
    [trim] that is a normalization, [get_text_by_xpath] with its
    default options and [get_list_by_xpath] agree: the text at [pos]
    is the element at [pos] of the list (a negative [pos] counting from
    the end), and null when the list has no such position; every
    element of the list is its own trimmed form. *)
Theorem X9_text_is_list_element {I : Imports} (h : Store) (xpath : string) (pos : Z)
    (texts : list string) :
  (forall s, trim (trim s) = trim s) ->
  evaluates h xpath (XNodes texts) ->
  exists l,
    result (get_list_by_xpath xpath (Some true)) h = Return l
    /\ result (get_text_by_xpath xpath pos None None None None) h
       = Return (Py.subscript l pos)
    /\ (forall e, In e l -> trim e = e).
Proof.
  intros Hidem He. exists (kept h xpath). split; [| split].
  - rewrite (get_list_by_xpath_nodes h xpath texts (Some true) He).
    unfold kept. now rewrite (evaluates_matches h xpath texts He).
  - rewrite (get_text_by_xpath_default_nodes h xpath texts pos He).
    destruct (Py.subscript (kept h xpath) pos) as [e |] eqn:E; [| reflexivity].
    simpl. now rewrite (kept_fixed h xpath e Hidem (subscript_In _ _ _ E)).
  - intros e. apply kept_fixed. exact Hidem.
Qed.

Lemma X9_text_is_list_element_witness :
  let h := sample_heap "https://host/club" [("//td/text()", [" a "; "  "; "b  c"])] in
  result (get_list_by_xpath "//td/text()" (Some true)) h = Return ["a"; "b c"]
  /\ result (get_text_by_xpath "//td/text()" (-1) None None None None) h
     = Return (Some "b c").
Proof.
  intros h.
  assert (He : evaluates h "//td/text()" (XNodes [" a "; "  "; "b  c"]))
    by (eexists; split; reflexivity).
  destruct (X9_text_is_list_element h "//td/text()" (-1) _ trim_spaces_idempotent He)
    as (l & Hl & Ht & _).
  assert (El : l = ["a"; "b c"]) by (vm_compute in Hl; congruence).
  subst l. split; [exact Hl | exact Ht].
Defined.

(** ** Slices with bounds that are not negative *)

Lemma slice_nil {A : Type} (lo hi : option Z) : Py.slice (@nil A) lo hi = [].
Proof. unfold Py.slice. now rewrite skipn_nil, firstn_nil. Qed.

Lemma slice_bounds {A : Type} (l : list A) (a b : Z) :
  0 <= a -> 0 <= b ->
  Py.slice l (Some a) (Some b)
  = firstn (Z.to_nat b - Z.to_nat a) (skipn (Z.to_nat a) l).
Proof.
  intros Ha Hb. unfold Py.slice, Py.clamp, Py.len.
  destruct (Z.ltb_spec a 0); [lia |]. destruct (Z.ltb_spec b 0); [lia |].
  set (n := List.length l).
  destruct (Z_le_dec a (Z.of_nat n)) as [Han | Han].
  - rewrite (Z.min_l a) by lia.
    destruct (Z_le_dec b (Z.of_nat n)) as [Hbn | Hbn].
    + rewrite (Z.min_l b) by lia. f_equal. lia.
    + rewrite (Z.min_r b) by lia.
      rewrite !firstn_all2; [reflexivity | |]; rewrite length_skipn; fold n; lia.
  - rewrite (Z.min_r a) by lia.
    rewrite !skipn_all2 by (fold n; lia). now rewrite !firstn_nil.
Qed.

Lemma slice_prefix {A : Type} (l : list A) (t : Z) :
  0 <= t -> Py.slice l None (Some t) = firstn (Z.to_nat t) l.
Proof.
  intros Ht. unfold Py.slice, Py.clamp, Py.len.
  destruct (Z.ltb_spec t 0); [lia |]. rewrite Z.sub_0_r. cbn [Z.to_nat skipn].
  destruct (Z_le_dec t (Z.of_nat (List.length l))).
  - now rewrite Z.min_l by lia.
  - rewrite Z.min_r by lia. rewrite !firstn_all2; [reflexivity | |]; lia.
Qed.

Lemma slice_suffix {A : Type} (l : list A) (f : Z) :
  0 <= f -> Py.slice l (Some f) None = skipn (Z.to_nat f) l.
Proof.
  intros Hf. unfold Py.slice, Py.clamp, Py.len.
  destruct (Z.ltb_spec f 0); [lia |].
  destruct (Z_le_dec f (Z.of_nat (List.length l))).
  - rewrite Z.min_l by lia. apply firstn_all2. rewrite length_skipn. lia.
  - rewrite Z.min_r by lia. rewrite !skipn_all2 by lia. apply firstn_nil.
Qed.

(** Three slices in a row, as the method takes them when both bounds
    are given, amount to one slice that starts at twice the lower
    bound. *)
Lemma slice_thrice {A : Type} (l : list A) (f t : Z) :
  0 <= f -> 0 <= t ->
  Py.slice (Py.slice (Py.slice l (Some f) (Some t)) None (Some t)) (Some f) None
  = Py.slice l (Some (2 * f)) (Some t).
Proof.
  intros Hf Ht.
  rewrite slice_suffix, slice_prefix, !slice_bounds by lia.
  set (s := firstn (Z.to_nat t - Z.to_nat f) (skipn (Z.to_nat f) l)).
  assert (Hs : firstn (Z.to_nat t) s = s).
  { apply firstn_all2. subst s. rewrite length_firstn. lia. }
  rewrite Hs. subst s.
  rewrite skipn_firstn_comm, skipn_skipn. f_equal; [lia | f_equal; lia].
Qed.

Lemma result_working_sequence_list {I : Imports} (h : Store) (l : list string) (f t : option Z) :
  result (working_sequence (VList l) None f t) h
  = Return (VList
      (let l1 := match f, t with
                 | Some a, Some b => Py.slice l (Some a) (Some b)
                 | _, _ => l
                 end in
       let l2 := match t with Some b => Py.slice l1 None (Some b) | None => l1 end in
       match f with Some a => Py.slice l2 (Some a) None | None => l2 end)).
Proof. destruct f, t; reflexivity. Qed.

(** X10. On a path that evaluates to a list of text values,
    [get_text_by_xpath] can fail in one way only: it raises IndexError,
    and only when [iloc] is given, the path has a match and [iloc] is
    out of range of the kept matches.  Without [iloc] it returns for
    every [pos], [iloc_from], [iloc_to] and [join_str]. *)
Theorem X10_only_iloc_raises {I : Imports} (h : Store) (xpath : string) (pos : Z)
    (iloc iloc_from iloc_to : option Z) (join_str : option string)
    (texts : list string) (e : exn) :
  evaluates h xpath (XNodes texts) ->
  result (get_text_by_xpath xpath pos iloc iloc_from iloc_to join_str) h = Raise e ->
  e = IndexError
  /\ texts <> []
  /\ exists k, iloc = Some k /\ out_of_range (kept h xpath) k.
Proof.
  intros He. pose proof (evaluates_matches h xpath texts He) as Hm.
  destruct texts as [| m ms].
  - rewrite (get_text_by_xpath_empty_nodes h xpath pos _ _ _ _ He). discriminate.
  - rewrite get_text_by_xpath_match by (rewrite Hm; discriminate).
    destruct (working_sequence_sequence h (VList (kept h xpath)) iloc iloc_from iloc_to
                eq_refl) as [(w & Hw & _) | (Hw & k & Hk & Hnone)]; rewrite Hw.
    + destruct join_str; discriminate.
    + intros [= <-]. split; [reflexivity | split; [discriminate |]].
      exists k. split; [exact Hk |]. now apply subscript_None_out_of_range.
Qed.

Lemma X10_only_iloc_raises_witness :
  let h := sample_heap "https://host/club" [("//td/text()", ["a"; "b"])] in
  exists k, Some (-3) = Some k /\ out_of_range (kept h "//td/text()") k.
Proof.
  intros h.
  assert (He : evaluates h "//td/text()" (XNodes ["a"; "b"]))
    by (eexists; split; reflexivity).
  refine (proj2 (proj2 (X10_only_iloc_raises h "//td/text()" 0 (Some (-3)) None None
                          (Some "-") _ IndexError He _))).
  reflexivity.
Defined.

(** X11. A path whose matches are all blank is not a path without
    match.  With no [iloc] the positional access gives null, as for a
    path without match, but a join gives the empty string where a path
    without match gives null, and every [iloc] raises IndexError. *)
Theorem X11_blank_matches {I : Imports} (h : Store) (xpath : string) :
  matches h xpath <> [] ->
  kept h xpath = [] ->
  (forall pos f t, result (get_text_by_xpath xpath pos None f t None) h = Return None)
  /\ (forall pos f t sep,
        result (get_text_by_xpath xpath pos None f t (Some sep)) h = Return (Some ""))
  /\ (forall pos k f t j,
        result (get_text_by_xpath xpath pos (Some k) f t j) h = Raise IndexError).
Proof.
  intros Hm Hk.
  assert (Hw : forall f t, result (working_sequence (VList []) None f t) h
                           = Return (VList [])).
  { intros f t. rewrite result_working_sequence_list.
    destruct f, t; cbn zeta; now rewrite ?slice_nil. }
  split; [| split].
  - intros pos f t. rewrite get_text_by_xpath_match by exact Hm.
    rewrite Hk, Hw. unfold seq_subscript. cbn [seq_items]. now rewrite subscript_nil.
  - intros pos f t sep. rewrite get_text_by_xpath_match by exact Hm.
    rewrite Hk, Hw. reflexivity.
  - intros pos k f t j. rewrite get_text_by_xpath_match by exact Hm. rewrite Hk.
    unfold working_sequence, result, bind, subscript, index_or_raise. simpl.
    now rewrite subscript_nil.
Qed.

Lemma X11_blank_matches_witness :
  let h := sample_heap "https://host/club" [("//td/text()", ["  "; " "])] in
  result (get_text_by_xpath "//td/text()" 0 None None None None) h = Return None
  /\ result (get_text_by_xpath "//td/text()" 0 None None None (Some "-")) h
     = Return (Some "")
  /\ result (get_text_by_xpath "//td/text()" 0 (Some 0) None None None) h
     = Raise IndexError.
Proof.
  intros h.
  assert (Hm : matches h "//td/text()" <> []) by (vm_compute; discriminate).
  assert (Hk : kept h "//td/text()" = []) by reflexivity.
  destruct (X11_blank_matches h "//td/text()" Hm Hk) as (Hpos & Hjoin & Hiloc).
  split; [| split].
  - exact (Hpos 0 None None).
  - exact (Hjoin 0 None None "-").
  - exact (Hiloc 0 0 None None None).
Defined.

(** X12. With a bound that is not negative, [iloc_to] alone keeps the
    first [n] kept matches and [iloc_from] alone drops them; the join,
    or the positional access, then works on what is left. *)
Theorem X12_prefix_and_suffix {I : Imports} (h : Store) (xpath : string)
    (n pos : Z) (join_str : option string) :
  matches h xpath <> [] ->
  0 <= n ->
  let shaped (l : list string) :=
    match join_str with
    | Some sep => Some (Py.join sep (map trim l))
    | None => option_map trim (Py.subscript l pos)
    end in
  result (get_text_by_xpath xpath pos None None (Some n) join_str) h
  = Return (shaped (firstn (Z.to_nat n) (kept h xpath)))
  /\ result (get_text_by_xpath xpath pos None (Some n) None join_str) h
     = Return (shaped (skipn (Z.to_nat n) (kept h xpath))).
Proof.
  intros Hm Hn shaped. subst shaped.
  rewrite !get_text_by_xpath_match by exact Hm.
  rewrite !result_working_sequence_list. cbn zeta.
  rewrite slice_prefix, slice_suffix by exact Hn.
  destruct join_str; split; reflexivity.
Qed.

Lemma X12_prefix_and_suffix_witness :
  let h := sample_heap "https://host/club" [("//td/text()", ["a"; "b"; "c"])] in
  result (get_text_by_xpath "//td/text()" 0 None None (Some 2) (Some "-")) h
  = Return (Some "a-b")
  /\ result (get_text_by_xpath "//td/text()" 0 None (Some 2) None None) h
     = Return (Some "c").
Proof.
  intros h.
  assert (Hm : matches h "//td/text()" <> []) by (vm_compute; discriminate).
  split.
  - refine (proj1 (X12_prefix_and_suffix h "//td/text()" 2 0 (Some "-") Hm _)). lia.
  - refine (proj2 (X12_prefix_and_suffix h "//td/text()" 2 0 None Hm _)). lia.
Defined.

(** X13. With both bounds given and neither negative, the three slices
    the method takes one after the other leave the kept matches from
    position [2 * iloc_from] up to position [iloc_to]; with [iloc_from]
    0 that is the first [iloc_to] of them. *)
Theorem X13_both_bounds {I : Imports} (h : Store) (xpath : string)
    (f t pos : Z) (join_str : option string) :
  matches h xpath <> [] ->
  0 <= f ->
  0 <= t ->
  let shaped (l : list string) :=
    match join_str with
    | Some sep => Some (Py.join sep (map trim l))
    | None => option_map trim (Py.subscript l pos)
    end in
  result (get_text_by_xpath xpath pos None (Some f) (Some t) join_str) h
  = Return (shaped (Py.slice (kept h xpath) (Some (2 * f)) (Some t)))
  /\ (f = 0 ->
      result (get_text_by_xpath xpath pos None (Some f) (Some t) join_str) h
      = Return (shaped (firstn (Z.to_nat t) (kept h xpath)))).
Proof.
  intros Hm Hf Ht shaped. subst shaped.
  rewrite !get_text_by_xpath_match by exact Hm.
  rewrite !result_working_sequence_list. cbn zeta.
  rewrite slice_thrice by assumption.
  split.
  - destruct join_str; reflexivity.
  - intros ->. rewrite slice_bounds by lia. cbn [Z.mul Z.to_nat skipn].
    rewrite Nat.sub_0_r. destruct join_str; reflexivity.
Qed.

Lemma X13_both_bounds_witness :
  let h := sample_heap "https://host/club"
             [("//td/text()", ["a"; "b"; "c"; "d"; "e"])] in
  result (get_text_by_xpath "//td/text()" 0 None (Some 1) (Some 4) (Some "-")) h
  = Return (Some "c-d")
  /\ result (get_text_by_xpath "//td/text()" 0 None (Some 0) (Some 2) (Some "-")) h
     = Return (Some "a-b").
Proof.
  intros h.
  assert (Hm : matches h "//td/text()" <> []) by (vm_compute; discriminate).
  split.
  - refine (proj1 (X13_both_bounds h "//td/text()" 1 4 0 (Some "-") Hm _ _)); lia.
  - refine (proj2 (X13_both_bounds h "//td/text()" 0 2 0 (Some "-") Hm _ _) _);
      (lia || reflexivity).
Defined.

(** ** Further properties of the pagination *)

Lemma occurs_app_sep (c : ascii) (pre token : string) :
  occurs c (pre ++ String c token) = true.
Proof.
  induction pre as [| a pre' IH]; simpl.
  - now rewrite Ascii.eqb_refl.
  - rewrite IH. apply orb_true_r.
Qed.

(** The text after the final [c] of a text that ends in [c] and a token
    without [c] is that token. *)
Lemma after_last_app_sep (c : ascii) (pre token : string) :
  occurs c token = false -> after_last c (pre ++ String c token) = token.
Proof.
  intros Ht. induction pre as [| a pre' IH]; simpl.
  - now rewrite Ht, Ascii.eqb_refl.
  - now rewrite occurs_app_sep.
Qed.

(** Taking the text after the final [c] does not reach into a tail
    [String d token] that has no [c]. *)
Lemma after_last_keeps_tail (c d : ascii) (pre token : string) :
  Ascii.eqb d c = false ->
  occurs c token = false ->
  exists pre', after_last c (pre ++ String d token) = pre' ++ String d token.
Proof.
  intros Hd Ht. induction pre as [| a pre' IH]; simpl.
  - rewrite Ht, Hd. now exists "".
  - destruct (occurs c (pre' ++ String d token)); [exact IH |].
    destruct (Ascii.eqb a c); [now exists pre' | now exists (String a pre')].
Qed.

Lemma text_at_nodes {I : Imports} (h : Store) (xpath : string) (texts : list string) :
  evaluates h xpath (XNodes texts) ->
  result (get_text_by_xpath xpath 0 None None None None) h = Return (text_at h xpath).
Proof.
  intros He. unfold text_at.
  now rewrite (get_text_by_xpath_default_nodes h xpath texts 0 He).
Qed.

Lemma result_last_page_loop_nodes {I : Imports} (h : Store) (xpath_base xpath : string)
    (paths : list string) (texts : list string) :
  evaluates h (xpath_base ++ xpath) (XNodes texts) ->
  result (last_page_loop xpath_base (xpath :: paths)) h =
  match text_at h (xpath_base ++ xpath) with
  | Some text =>
      if Py.truthy text then result (page_number_of text) h
      else result (last_page_loop xpath_base paths) h
  | None => result (last_page_loop xpath_base paths) h
  end.
Proof.
  intros He. rewrite result_last_page_loop_step.
  rewrite (text_at_nodes h _ texts He).
  destruct (text_at h (xpath_base ++ xpath)); reflexivity.
Qed.

(** X14. When the "last page" path evaluates to a list of text values:
    a non-empty text under it decides alone, malformed or not, and the
    "active page" path is then not consulted.  When the "active page"
    path evaluates to such a list too, [get_last_page_number] returns
    1, or it reads the page number off a non-empty text found under one
    of the two paths, and the only exception it can raise is
    ValueError. *)
Theorem X14_last_page_number_outcomes {I : Imports} (h : Store) (xpath_base : string)
    (last_texts : list string) :
  evaluates h (xpath_base ++ PAGE_NUMBER_LAST) (XNodes last_texts) ->
  let number_of (text : string) :=
    match page_indicator text with
    | Some n => Return n
    | None => Raise ValueError
    end in
  (forall text,
     text_at h (xpath_base ++ PAGE_NUMBER_LAST) = Some text ->
     text <> "" ->
     result (get_last_page_number xpath_base) h = number_of text)
  /\ (forall active_texts,
        evaluates h (xpath_base ++ PAGE_NUMBER_ACTIVE) (XNodes active_texts) ->
        (result (get_last_page_number xpath_base) h = Return 1
         \/ exists text,
              (text_at h (xpath_base ++ PAGE_NUMBER_LAST) = Some text
               \/ text_at h (xpath_base ++ PAGE_NUMBER_ACTIVE) = Some text)
              /\ text <> ""
              /\ result (get_last_page_number xpath_base) h = number_of text)
        /\ (forall e, result (get_last_page_number xpath_base) h = Raise e ->
                      e = ValueError)).
Proof.
  intros Hl number_of.
  assert (Hlast : forall text,
             text_at h (xpath_base ++ PAGE_NUMBER_LAST) = Some text ->
             text <> "" ->
             result (get_last_page_number xpath_base) h = number_of text).
  { intros text Ht Hne. unfold get_last_page_number.
    rewrite (result_last_page_loop_nodes h _ _ _ _ Hl), Ht.
    destruct text as [| c text']; [congruence |]. simpl Py.truthy. cbv iota.
    apply result_page_number_of. }
  split; [exact Hlast |]. intros active_texts Ha.
  assert (Hall : result (get_last_page_number xpath_base) h = Return 1
                 \/ exists text,
                      (text_at h (xpath_base ++ PAGE_NUMBER_LAST) = Some text
                       \/ text_at h (xpath_base ++ PAGE_NUMBER_ACTIVE) = Some text)
                      /\ text <> ""
                      /\ result (get_last_page_number xpath_base) h = number_of text).
  { destruct (text_at h (xpath_base ++ PAGE_NUMBER_LAST)) as [[| c text] |] eqn:E1.
    2: { right. exists (String c text). repeat split; [now left | discriminate |].
         apply Hlast; [reflexivity | discriminate]. }
    all: unfold get_last_page_number;
      rewrite (result_last_page_loop_nodes h _ _ _ _ Hl), E1; cbn [Py.truthy];
      rewrite (result_last_page_loop_nodes h _ _ _ _ Ha);
      destruct (text_at h (xpath_base ++ PAGE_NUMBER_ACTIVE)) as [[| c text] |] eqn:E2;
      cbn [Py.truthy last_page_loop];
      try (left; reflexivity).
    all: right; exists (String c text);
      repeat split; [now right | discriminate | apply result_page_number_of]. }
  split; [exact Hall |].
  intros e He. destruct Hall as [H1 | (text & _ & _ & Ht)].
  - rewrite H1 in He. discriminate.
  - rewrite Ht in He. unfold number_of in He.
    destruct (page_indicator text); [discriminate | congruence].
Qed.

Lemma X14_last_page_number_outcomes_witness :
  let h := sample_heap "https://host/club"
             [("//li[@class='last-page']//@href", ["/suche/page/last"]);
              ("//li[@class='active-page']//@href", ["/suche/page/3"])] in
  result (get_last_page_number "") h = Raise ValueError.
Proof.
  intros h.
  assert (Hl : evaluates h "//li[@class='last-page']//@href"
                 (XNodes ["/suche/page/last"]))
    by (eexists; split; reflexivity).
  refine (proj1 (X14_last_page_number_outcomes h "" _ Hl) "/suche/page/last" _ _).
  - reflexivity.
  - discriminate.
Defined.

(** X15. The page number is read from the end of the pagination text:
    for a text that ends in [=] or in [/] followed by a token holding
    neither character, the outcome is that of converting the token
    alone, whatever comes before. *)
Theorem X15_page_number_is_last_token {I : Imports} (h : Store) (before token : string) :
  occurs "=" token = false ->
  occurs "/" token = false ->
  let number :=
    match Py.int token with
    | Some n => Return n
    | None => Raise ValueError
    end in
  result (page_number_of (before ++ String "=" token)) h = number
  /\ result (page_number_of (before ++ String "/" token)) h = number.
Proof.
  intros He Hs number. subst number.
  rewrite !result_page_number_of. unfold page_indicator. split.
  - rewrite (after_last_app_sep "=" before token He).
    now rewrite (after_last_without "/" token Hs).
  - destruct (after_last_keeps_tail "=" "/" before token eq_refl He) as [pre' ->].
    now rewrite (after_last_app_sep "/" pre' token Hs).
Qed.

Lemma X15_page_number_is_last_token_witness :
  let h := sample_heap "https://host/club" [] in
  result (page_number_of "/verein/saison_id/2023?page=12") h = Return 12
  /\ result (page_number_of "/suche?query=ajax/seite/4") h = Return 4.
Proof.
  intros h. split.
  - refine (proj1 (X15_page_number_is_last_token h "/verein/saison_id/2023?page" "12" _ _));
      reflexivity.
  - refine (proj2 (X15_page_number_is_last_token h "/suche?query=ajax/seite" "4" _ _));
      reflexivity.
Defined.

(** ** Extraction and the outside world *)

(** X16. The four extraction methods work on the page alone: none of
    them sleeps or sends a request, whether it returns or raises, so
    the log of outside effects is the same after the call. *)
Theorem X16_extraction_is_offline {I : Imports} (h : Store) :
  (forall xpath remove_empty,
     log (snd (get_list_by_xpath xpath remove_empty h)) = log h)
  /\ (forall xpath pos iloc iloc_from iloc_to join_str,
        log (snd (get_text_by_xpath xpath pos iloc iloc_from iloc_to join_str h)) = log h)
  /\ (forall xpath_base, log (snd (get_last_page_number xpath_base h)) = log h)
  /\ (forall xpath, log (snd (raise_exception_if_not_found xpath h)) = log h).
Proof.
  split; [| split; [| split]]; intros.
  - now rewrite heap_unchanged_get_list_by_xpath.
  - now rewrite heap_unchanged_get_text_by_xpath.
  - now rewrite heap_unchanged_get_last_page_number.
  - now rewrite heap_unchanged_raise_exception_if_not_found.
Qed.

Section ReadsSelf.

Context {I : Imports}.

Lemma reads_self_ret {A : Type} (a : A) : reads_self (ret a).
Proof. intros h h' _. reflexivity. Qed.

Lemma reads_self_raise {A : Type} (e : exn) : reads_self (@raise I A e).
Proof. intros h h' _. reflexivity. Qed.

Lemma reads_self_get_self : reads_self get_self.
Proof. intros h h' Hs. unfold result, get_self. cbn [fst]. now rewrite Hs. Qed.

Lemma reads_self_bind {A B : Type} (m : M A) (k : A -> M B) :
  heap_unchanged m -> reads_self m -> (forall a, reads_self (k a)) ->
  reads_self (bind m k).
Proof.
  intros Hu Hm Hk h h' Hs. rewrite !result_bind by exact Hu.
  rewrite (Hm h h' Hs). destruct (result m h) as [a | e]; [| reflexivity].
  now apply Hk.
Qed.

Lemma reads_self_try_except {A : Type} (m handler : M A) (caught : exn -> bool) :
  heap_unchanged m -> reads_self m -> reads_self handler ->
  reads_self (try_except m caught handler).
Proof.
  intros Hu Hm Hh h h' Hs. rewrite !result_try_except by exact Hu.
  rewrite (Hm h h' Hs). destruct (result m h) as [a | e]; [reflexivity |].
  destruct (caught e); [now apply Hh | reflexivity].
Qed.

Lemma reads_self_index_or_raise {A : Type} (o : option A) : reads_self (index_or_raise o).
Proof. destruct o; [apply reads_self_ret | apply reads_self_raise]. Qed.

Lemma reads_self_items (v : value) : reads_self (items v).
Proof. destruct v; intros h h' _; reflexivity. Qed.

Lemma reads_self_subscript (v : value) (i : Z) : reads_self (subscript v i).
Proof.
  destruct v; simpl; try apply reads_self_index_or_raise; apply reads_self_raise.
Qed.

Lemma reads_self_slice (v : value) (lo hi : option Z) : reads_self (slice v lo hi).
Proof. destruct v; intros h h' _; reflexivity. Qed.

Lemma reads_self_page_xpath (xpath : string) : reads_self (page_xpath xpath).
Proof.
  unfold page_xpath.
  apply reads_self_bind; [apply heap_unchanged_get_self | apply reads_self_get_self |].
  intros this. destruct (page this) as [tree |]; [| apply reads_self_raise].
  destruct (xpath_eval tree xpath); (apply reads_self_ret || apply reads_self_raise).
Qed.

Lemma reads_self_working_sequence (element : value) (iloc f t : option Z) :
  reads_self (working_sequence element iloc f t).
Proof.
  intros h h' _.
  unfold working_sequence, result, bind, subscript, slice, index_or_raise, ret, raise.
  destruct iloc as [k |].
  - destruct element; cbn [fst];
      try (destruct (Py.subscript _ k)); try (destruct (Py.str_subscript _ k));
      destruct f, t; reflexivity.
  - destruct element; destruct f, t; reflexivity.
Qed.

Lemma reads_self_get_list_by_xpath (xpath : string) (remove_empty : option bool) :
  reads_self (get_list_by_xpath xpath remove_empty).
Proof.
  unfold get_list_by_xpath.
  apply reads_self_bind;
    [apply heap_unchanged_page_xpath | apply reads_self_page_xpath | intros elements].
  apply reads_self_bind; [| | intros; apply reads_self_ret].
  - destruct remove_empty as [[|] |];
      (apply heap_unchanged_bind;
       [apply heap_unchanged_items | intros; apply heap_unchanged_ret]).
  - destruct remove_empty as [[|] |];
      (apply reads_self_bind;
       [apply heap_unchanged_items | apply reads_self_items | intros; apply reads_self_ret]).
Qed.

Lemma reads_self_get_text_by_xpath (xpath : string) (pos : Z)
    (iloc f t : option Z) (j : option string) :
  reads_self (get_text_by_xpath xpath pos iloc f t j).
Proof.
  unfold get_text_by_xpath.
  apply reads_self_bind;
    [apply heap_unchanged_page_xpath | apply reads_self_page_xpath | intros element].
  destruct (negb (truthy_value element)); [apply reads_self_ret |].
  apply reads_self_bind;
    [apply heap_unchanged_working_sequence | apply reads_self_working_sequence | intros w].
  destruct j as [sep |].
  - apply reads_self_bind;
      [apply heap_unchanged_items | apply reads_self_items | intros; apply reads_self_ret].
  - apply reads_self_try_except; [| | apply reads_self_ret].
    + apply heap_unchanged_bind;
        [apply heap_unchanged_subscript | intros; apply heap_unchanged_ret].
    + apply reads_self_bind;
        [apply heap_unchanged_subscript | apply reads_self_subscript |
         intros; apply reads_self_ret].
Qed.

Lemma reads_self_page_number_of (url_page : string) : reads_self (page_number_of url_page).
Proof. intros h h' _. now rewrite !result_page_number_of. Qed.

Lemma reads_self_last_page_loop (xpath_base : string) (paths : list string) :
  reads_self (last_page_loop xpath_base paths).
Proof.
  induction paths as [| xpath paths' IH]; [apply reads_self_ret |].
  simpl last_page_loop.
  apply reads_self_bind;
    [apply heap_unchanged_get_text_by_xpath | apply reads_self_get_text_by_xpath |].
  intros [text |]; [| exact IH].
  destruct (Py.truthy text); [apply reads_self_page_number_of | exact IH].
Qed.

Lemma reads_self_raise_exception_if_not_found (xpath : string) :
  reads_self (raise_exception_if_not_found xpath).
Proof.
  unfold raise_exception_if_not_found.
  apply reads_self_bind;
    [apply heap_unchanged_get_text_by_xpath | apply reads_self_get_text_by_xpath |].
  intros found. destruct (negb (Py.truthy_opt found)); [| apply reads_self_ret].
  apply reads_self_bind;
    [apply heap_unchanged_get_self | apply reads_self_get_self |
     intros; apply reads_self_raise].
Qed.

End ReadsSelf.

Lemma same_extraction_same_self {I : Imports} (h h' : Store) :
  self h' = self h -> same_extraction h h'.
Proof.
  intros Hs. split; [| split; [| split]]; intros.
  - now apply reads_self_get_list_by_xpath.
  - now apply reads_self_get_text_by_xpath.
  - now apply reads_self_last_page_loop.
  - now apply reads_self_raise_exception_if_not_found.
Qed.

(** X17. A request does not load the page: [make_request] and
    [request_url_bsoup] leave the field [page] as it was, so that every
    extraction method answers after the request, successful or not,
    exactly as it did before. *)
Theorem X17_request_keeps_the_page {I : Imports} {B : Soup} (h : Store) (url : option string) :
  page (self (snd (make_request url h))) = page (self h)
  /\ same_extraction h (snd (make_request url h))
  /\ page (self (snd (request_url_bsoup h))) = page (self h)
  /\ same_extraction h (snd (request_url_bsoup h)).
Proof.
  assert (Hm : self (snd (make_request url h)) = self h).
  { rewrite make_request_run. reflexivity. }
  assert (Hb : self (snd (request_url_bsoup h)) = self h).
  { unfold request_url_bsoup, bind, ret. rewrite make_request_run. cbn [fst snd].
    destruct (answer h None) as [[| | message] | r]; try reflexivity.
    destruct ((400 <=? status_code r) && (status_code r <? 500)); [reflexivity |].
    destruct ((500 <=? status_code r) && (status_code r <? 600)); reflexivity. }
  split; [now rewrite Hm | split; [now apply same_extraction_same_self |]].
  split; [now rewrite Hb | now apply same_extraction_same_self].
Qed.

(** ** Paths that do not evaluate to a node-set *)

Lemma get_list_by_xpath_other {I : Imports} (h : Store) (xpath : string)
    (remove_empty : option bool) :
  (page (self h) = None ->
   result (get_list_by_xpath xpath remove_empty) h = Raise AttributeError)
  /\ (evaluates h xpath XInvalid ->
      result (get_list_by_xpath xpath remove_empty) h = Raise XPathEvalError)
  /\ (forall b,
        evaluates h xpath (XNumber b) \/ evaluates h xpath (XBoolean b) ->
        result (get_list_by_xpath xpath remove_empty) h = Raise TypeError).
Proof.
  unfold get_list_by_xpath.
  rewrite result_bind by apply heap_unchanged_page_xpath.
  split; [| split].
  - intros Hp. now rewrite result_page_xpath_unloaded.
  - intros He. now rewrite (result_page_xpath h xpath _ He).
  - intros b [He | He]; rewrite (result_page_xpath h xpath _ He);
      destruct remove_empty as [[|] |]; reflexivity.
Qed.

(** X18. Neither [get_list_by_xpath] nor [get_text_by_xpath] handles a
    failure of the evaluation.  On an instance whose page is not loaded
    both raise AttributeError, and on a path that is not well formed
    both raise XPathEvalError.  On a path that evaluates to a number or
    a boolean, [get_list_by_xpath] raises TypeError, and
    [get_text_by_xpath] returns null for zero and false and raises
    TypeError otherwise, whatever the options. *)
Theorem X18_evaluation_failures {I : Imports} (h : Store) (xpath : string) :
  (page (self h) = None ->
   (forall remove_empty,
      result (get_list_by_xpath xpath remove_empty) h = Raise AttributeError)
   /\ (forall pos iloc iloc_from iloc_to join_str,
         result (get_text_by_xpath xpath pos iloc iloc_from iloc_to join_str) h
         = Raise AttributeError))
  /\ (evaluates h xpath XInvalid ->
      (forall remove_empty,
         result (get_list_by_xpath xpath remove_empty) h = Raise XPathEvalError)
      /\ (forall pos iloc iloc_from iloc_to join_str,
            result (get_text_by_xpath xpath pos iloc iloc_from iloc_to join_str) h
            = Raise XPathEvalError))
  /\ (forall b,
        evaluates h xpath (XNumber b) \/ evaluates h xpath (XBoolean b) ->
        (forall remove_empty,
           result (get_list_by_xpath xpath remove_empty) h = Raise TypeError)
        /\ (forall pos iloc iloc_from iloc_to join_str,
              result (get_text_by_xpath xpath pos iloc iloc_from iloc_to join_str) h
              = if b then Raise TypeError else Return None)).
Proof.
  split; [| split].
  - intros Hp. split; intros.
    + now apply get_list_by_xpath_other.
    + now apply get_text_by_xpath_other.
  - intros He. split; intros.
    + now apply get_list_by_xpath_other.
    + now apply get_text_by_xpath_other.
  - intros b He. split; intros.
    + now apply (proj2 (proj2 (get_list_by_xpath_other h xpath remove_empty)) b).
    + destruct (get_text_by_xpath_other h xpath pos iloc iloc_from iloc_to join_str)
        as (_ & _ & Htrue & Hfalse).
      destruct b; [apply Htrue | apply Hfalse]; tauto.
Qed.

Lemma X18_evaluation_failures_witness :
  let h := sample_store "https://host/club"
             (Some (mkSamplePage [] [("//td[", XInvalid); ("count(//td)", XNumber true)])) in
  result (get_list_by_xpath "//td[" (Some true)) h = Raise XPathEvalError
  /\ result (get_text_by_xpath "count(//td)" 0 None None None None) h = Raise TypeError
  /\ result (get_text_by_xpath "//td" 0 None None None None)
       (sample_store "https://host/club" None)
     = Raise AttributeError.
Proof.
  intros h.
  assert (Hi : evaluates h "//td[" XInvalid) by (eexists; split; reflexivity).
  assert (Hn : evaluates h "count(//td)" (XNumber true)) by (eexists; split; reflexivity).
  split; [| split].
  - exact (proj1 (proj1 (proj2 (X18_evaluation_failures h "//td[")) Hi) (Some true)).
  - exact (proj2 (proj2 (proj2 (X18_evaluation_failures h "count(//td)")) true
             (or_introl Hn)) 0 None None None None).
  - exact (proj2 (proj1 (X18_evaluation_failures (sample_store "https://host/club" None)
             "//td") eq_refl) 0 None None None None).
Defined.

(** X19. On a path that evaluates to a non-empty string the methods
    work character by character, and the string is not trimmed as a
    whole: [get_text_by_xpath] gives the character at [pos], trimmed,
    or null past the end, and with [join_str] the characters joined,
    each trimmed; [get_list_by_xpath] gives the characters, each
    trimmed, without the blank ones when [remove_empty] is true. *)
Theorem X19_string_valued_path {I : Imports} (h : Store) (xpath : string)
    (c : ascii) (s : string) :
  evaluates h xpath (XString (String c s)) ->
  let characters := Py.chars (String c s) in
  (forall pos,
     result (get_text_by_xpath xpath pos None None None None) h
     = Return (option_map trim (Py.subscript characters pos)))
  /\ (forall pos sep,
        result (get_text_by_xpath xpath pos None None None (Some sep)) h
        = Return (Some (Py.join sep (map trim characters))))
  /\ result (get_list_by_xpath xpath (Some true)) h
     = Return (filter (fun e => negb (e =? "")%string) (map trim characters))
  /\ result (get_list_by_xpath xpath (Some false)) h = Return (map trim characters).
Proof.
  intros He characters. subst characters.
  split; [| split; [| split]].
  - intros pos. unfold get_text_by_xpath.
    rewrite result_bind by apply heap_unchanged_page_xpath.
    rewrite (result_page_xpath h xpath _ He).
    cbn [truthy_value Py.truthy negb].
    rewrite result_bind by apply heap_unchanged_working_sequence.
    rewrite working_sequence_none.
    rewrite result_try_except
      by (apply heap_unchanged_bind; [apply heap_unchanged_subscript |
          intros ?; apply heap_unchanged_ret]).
    rewrite result_bind by apply heap_unchanged_subscript.
    rewrite (result_subscript_sequence h (VStr (String c s)) pos eq_refl).
    unfold seq_subscript. cbn [seq_items].
    now destruct (Py.subscript (Py.chars (String c s)) pos).
  - intros pos sep. unfold get_text_by_xpath.
    rewrite result_bind by apply heap_unchanged_page_xpath.
    rewrite (result_page_xpath h xpath _ He). reflexivity.
  - unfold get_list_by_xpath.
    rewrite result_bind by apply heap_unchanged_page_xpath.
    rewrite (result_page_xpath h xpath _ He).
    unfold result, bind, items, ret. cbn [fst].
    rewrite trimmed_nonempty_filter. now destruct (filter _ _).
  - unfold get_list_by_xpath.
    rewrite result_bind by apply heap_unchanged_page_xpath.
    rewrite (result_page_xpath h xpath _ He).
    unfold result, bind, items, ret. cbn [fst].
    now destruct (map trim _).
Qed.

Lemma X19_string_valued_path_witness :
  let h := sample_store "https://host/club"
             (Some (mkSamplePage [] [("string(//td)", XString "a b")])) in
  result (get_text_by_xpath "string(//td)" 1 None None None None) h = Return (Some "")
  /\ result (get_list_by_xpath "string(//td)" (Some true)) h = Return ["a"; "b"].
Proof.
  intros h.
  assert (He : evaluates h "string(//td)" (XString "a b")) by (eexists; split; reflexivity).
  split.
  - exact (proj1 (X19_string_valued_path h "string(//td)" "a" " b" He) 1).
  - exact (proj1 (proj2 (proj2 (X19_string_valued_path h "string(//td)" "a" " b" He)))).
Defined.
